(** * Semantic Scholar publication trends: the query executor and the sweep

    A shallow embedding of [search_query.py]: the retry loop of
    [search_semantic_scholar], the API-search sweep that drives it over
    every (topic, year) pair, and the plot-type switch [create_plot].

    The program talks to three things outside itself: the HTTP transport
    ([requests.get]), the random generator ([random.uniform]) and the clock
    ([time.sleep]).  They are modelled by two oracles, one answering the
    i-th request issued and one giving the i-th random draw, and by a
    world that counts the requests and draws made so far and records every
    request and every sleep in a trace.

    Numbers: Python integers are [Z]; the floats of the program (wait
    times, delays, the citation average) are carried as the exact
    rationals [Q] of the sums and quotients the program rounds, a random
    draw being an arbitrary rational of [0, 1).  The float the program
    holds is the binary64 rounding of that rational, [binary64], written
    out below and used where a property depends on the rounding.
    Streamlit widget calls ([st.warning], [st.error], the progress bar)
    only render and are left out. *)

From Stdlib Require Import ZArith QArith Qround String Ascii List Bool Lia Lqa.
From Stdlib Require Import DecimalString.
Import ListNotations.

Open Scope string_scope.
Open Scope Z_scope.

(** ** Strings *)

(** [str(n)] for a Python integer. *)
Definition str (n : Z) : string := NilZero.string_of_int (Z.to_int n).

(** [sub in s] for two Python strings. *)
Fixpoint str_in (sub s : string) : bool :=
  prefix sub s ||
  match s with
  | EmptyString => false
  | String _ s' => str_in sub s'
  end.

(** Truth value of an optional string ([if error_msg:]): [None] and the
    empty string are false. *)
Definition truthy (m : option string) : bool :=
  match m with
  | None => false
  | Some EmptyString => false
  | Some (String _ _) => true
  end.

(** ** The HTTP transport *)

(** The query parameters of one GET request. *)
Record Params := mkParams {
  p_query : string;
  p_year : string;
  p_limit : Z;
  p_fields : string
}.

(** One paper of a paper-list envelope; [citationCount] may be absent. *)
Record Paper := mkPaper { citationCount : option Z }.

(** The decoded JSON body: a total-count envelope and a paper-list
    envelope share one shape, each key optional. *)
Record Json := mkJson {
  js_total : option Z;
  js_data : option (list Paper)
}.

Record Response := mkResponse {
  status_code : Z;
  reason : string;
  url : string;
  body : Json
}.

(** What [requests.get] does: it raises a [RequestException] [e] (given by
    [str(e)]) or returns a response. *)
Inductive GetResult :=
| Raise (e : string)
| Reply (response : Response).

(** [response.raise_for_status()]: [Some msg] when it raises an
    [HTTPError] whose text is [msg], [None] when it returns. *)
Definition raise_for_status (r : Response) : option string :=
  if (400 <=? status_code r) && (status_code r <? 500) then
    Some (str (status_code r) ++ " Client Error: " ++ reason r
          ++ " for url: " ++ url r)
  else if (500 <=? status_code r) && (status_code r <? 600) then
    Some (str (status_code r) ++ " Server Error: " ++ reason r
          ++ " for url: " ++ url r)
  else None.

(** ** The world: requests, random draws, sleeps *)

(** Which [time.sleep] of the program an entry of the trace comes from. *)
Inductive SleepKind :=
| Courtesy          (* the delay of the sweep loop *)
| RateLimitBackoff  (* after a 429 response *)
| ErrorBackoff.     (* after a RequestException *)

(** [EvSleep k t] records the exact value [t] of the expression passed to
    [time.sleep]; the program evaluates it in floats and sleeps
    [binary64 t]. *)
Inductive Event :=
| EvGet (p : Params)
| EvSleep (k : SleepKind) (t : Q).

Record World := mkWorld {
  requests_made : nat;
  draws_made : nat;
  trace : list Event
}.

Definition world0 : World := mkWorld 0 0 [].

(** A computation reads and updates the world; [None] is a run that the
    fuel of a loop did not let finish. *)
Definition M (A : Type) : Type := World -> option (A * World).

Definition ret {A} (a : A) : M A := fun w => Some (a, w).

Definition bind {A B} (m : M A) (f : A -> M B) : M B :=
  fun w => match m w with
           | Some (a, w') => f a w'
           | None => None
           end.

Definition out_of_fuel {A} : M A := fun _ => None.

Declare Scope monad_scope.
Delimit Scope monad_scope with monad.
Notation "x <- m ;; k" := (bind m (fun x => k))
  (at level 61, m at next level, right associativity) : monad_scope.
Notation "' pat <- m ;; k" :=
  (bind m (fun x => match x with pat => k end))
  (at level 61, pat pattern, m at next level, right associativity) : monad_scope.
Notation "m ;;; k" := (bind m (fun _ => k))
  (at level 61, right associativity) : monad_scope.
Open Scope monad_scope.

Definition log (e : Event) : M unit :=
  fun w => Some (tt, mkWorld (requests_made w) (draws_made w) (trace w ++ [e])).

(** The result of the executor:
    [(publication count, citation average, error message or None)]. *)
Definition Result : Type := Z * Q * option string.

(** The [return] statement a call of the executor leaves through. *)
Inductive ReturnSite :=
| AtRateLimit   (* return 0, 0, "Rate limit exceeded after ..." *)
| AtSuccess     (* return total, citation_count, error_msg *)
| AtApiError    (* return 0, 0, "API Error: ..." *)
| AtFallback.   (* return 0, 0, "Max retries exceeded" *)

Definition base_url : string :=
  "https://api.semanticscholar.org/graph/v1/paper/search".

Section Program.

(** The reply to the i-th request issued, and the i-th draw of the random
    generator ([random.random()]). *)
Variable http : nat -> GetResult.
Variable rnd : nat -> Q.

(** [requests.get(base_url, params=p, headers=headers)] *)
Definition requests_get (p : Params) : M GetResult :=
  fun w => Some (http (requests_made w),
                 mkWorld (S (requests_made w)) (draws_made w)
                         (trace w ++ [EvGet p])).

(** [random.uniform(a, b)], which is [a + (b - a) * random()]. *)
Definition random_uniform (a b : Q) : M Q :=
  fun w => Some ((a + (b - a) * rnd (draws_made w))%Q,
                 mkWorld (requests_made w) (S (draws_made w)) (trace w)).

(** [time.sleep(t)] *)
Definition time_sleep (k : SleepKind) (t : Q) : M unit := log (EvSleep k t).

(** *** search_semantic_scholar *)

(** [sum(paper.get('citationCount', 0) for paper in papers)] *)
Definition sum_citations (papers : list Paper) : Z :=
  fold_left (fun acc p => acc + match citationCount p with
                                | Some c => c
                                | None => 0
                                end) papers 0.

(** The inner [try] of the citation sampling: the second request and the
    mean over its sample; any exception becomes the advisory message. *)
Definition sample_citations (query : string) (year : Z)
  : M (Q * option string) :=
  let citation_params := mkParams query (str year) 100 "citationCount" in
  let failed (e : string) : M (Q * option string) :=
    ret (0%Q, Some ("Got publication count but couldn't retrieve citation data: " ++ e)) in
  got <- requests_get citation_params ;;
  match got with
  | Raise e => failed e
  | Reply citation_response =>
    match raise_for_status citation_response with
    | Some e => failed e
    | None =>
      match js_data (body citation_response) with
      | Some papers =>
        match papers with
        | [] => ret (0%Q, None)
        | _ :: _ =>
          ret ((inject_Z (sum_citations papers)
                / inject_Z (Z.of_nat (length papers)))%Q, None)
        end
      | None => ret (0%Q, None)
      end
    end
  end.


(** The [while retry_count <= max_retries] loop.  [fuel] bounds the
    number of iterations the model may run; the result comes with the
    [return] statement that produced it.  [wait_time] is the exact sum of
    the power and the jitter; the float the source computes is its
    rounding [binary64 wait_time] as long as the power is below [2^53]
    (33 retries for base 3; the program asks for 3). *)
Fixpoint search_loop (query : string) (year : Z) (include_citations : bool)
    (max_retries : Z) (fuel : nat) (retry_count : Z)
  : M (ReturnSite * Result) :=
  let params := mkParams query (str year) 1 "year" in
  if retry_count <=? max_retries then
    match fuel with
    | O => out_of_fuel
    | S fuel' =>
      (* except requests.exceptions.RequestException as e: *)
      let handler (e : string) : M (ReturnSite * Result) :=
        let retry_count := retry_count + 1 in
        if (retry_count >? max_retries) || negb (str_in "429" e) then
          ret (AtApiError, (0, 0%Q, Some ("API Error: " ++ e)))
        else
          jitter <- random_uniform 0 1 ;;
          let wait_time := (inject_Z (2 ^ retry_count) + jitter)%Q in
          time_sleep ErrorBackoff wait_time ;;;
          search_loop query year include_citations max_retries fuel' retry_count
      in
      got <- requests_get params ;;
      match got with
      | Raise e => handler e
      | Reply response =>
        if status_code response =? 429 then
          let retry_count := retry_count + 1 in
          if retry_count >? max_retries then
            ret (AtRateLimit,
                 (0, 0%Q, Some ("Rate limit exceeded after " ++ str max_retries
                                ++ " retries")))
          else
            jitter <- random_uniform 0 1 ;;
            let wait_time := (inject_Z (3 ^ retry_count) + jitter)%Q in
            time_sleep RateLimitBackoff wait_time ;;;
            search_loop query year include_citations max_retries fuel' retry_count
        else
          match raise_for_status response with
          | Some e => handler e
          | None =>
            let data := body response in
            let total := match js_total data with
                         | Some t => t
                         | None => 0
                         end in
            if include_citations && (total >? 0) then
              '(citation_count, error_msg) <- sample_citations query year ;;
              ret (AtSuccess, (total, citation_count, error_msg))
            else
              ret (AtSuccess, (total, 0%Q, None))
          end
      end
    end
  else
    ret (AtFallback, (0, 0%Q, Some "Max retries exceeded")).

(** Every iteration that does not return adds one to [retry_count], so the
    loop body runs at most [max_retries + 1] times. *)
Definition search_fuel (max_retries : Z) : nat := Z.to_nat (max_retries + 1).

(** The executor together with the [return] statement it left through. *)
Definition search_semantic_scholar_at (query : string) (year : Z)
    (include_citations : bool) (max_retries : Z) : M (ReturnSite * Result) :=
  search_loop query year include_citations max_retries
              (search_fuel max_retries) 0.

Definition search_semantic_scholar (query : string) (year : Z)
    (include_citations : bool) (max_retries : Z) : M Result :=
  sr <- search_semantic_scholar_at query year include_citations max_retries ;;
  ret (snd sr).

(** The default of the [max_retries] parameter. *)
Definition default_max_retries : Z := 3.

(** *** The API-search sweep *)

(** One row of the result table; the key ["Average Citations"] is
    optional. *)
Record ResultRecord := mkRecord {
  Topic : string;
  Year : Z;
  Publications : Z;
  Average_Citations : option Q
}.

(** [list(range(a, b))] *)
Definition range (a b : Z) : list Z :=
  map (fun i => a + Z.of_nat i) (seq 0 (Z.to_nat (b - a))).

(** [for x in xs: body], the loop's variables passed along as [s]. *)
Fixpoint for_each {A S : Type} (xs : list A) (body : A -> S -> M S) (s : S)
  : M S :=
  match xs with
  | [] => ret s
  | x :: xs' => s' <- body x s ;; for_each xs' body s'
  end.

(** [f"Error for '{topic}' in {year}: {error_msg}"] *)
Definition error_line (topic : string) (year : Z) (error_msg : option string)
  : string :=
  "Error for '" ++ topic ++ "' in " ++ str year ++ ": "
  ++ match error_msg with Some m => m | None => "None" end.

(** The body of the inner loop, on the lists [results] and [errors]. *)
Definition sweep_body (include_citations : bool) (min_delay max_delay : Z)
    (topic : string) (year : Z) (acc : list ResultRecord * list string)
  : M (list ResultRecord * list string) :=
  let '(results, errors) := acc in
  let query := topic in
  delay <- random_uniform (inject_Z min_delay) (inject_Z max_delay) ;;
  time_sleep Courtesy delay ;;;
  '(pub_count, citation_avg, error_msg) <-
     search_semantic_scholar query year include_citations default_max_retries ;;
  let errors :=
    if truthy error_msg then
      (errors ++ [error_line topic year error_msg])%list
    else errors in
  let result :=
    mkRecord topic year pub_count
             (if include_citations then Some citation_avg else None) in
  ret ((results ++ [result])%list, errors).

(** What the handler of the search tab leaves behind: the rejection of the
    year range, or the two lists of the sweep. *)
Inductive Outcome :=
| Rejected (message : string)
| Swept (results : list ResultRecord) (errors : list string).

Definition results_of (o : Outcome) : list ResultRecord :=
  match o with
  | Rejected _ => []
  | Swept results _ => results
  end.

Definition errors_of (o : Outcome) : list string :=
  match o with
  | Rejected _ => []
  | Swept _ errors => errors
  end.

(** The two nested [for] loops, from any [results] and [errors]. *)
Definition sweep_loops (topic_list : list string) (years : list Z)
    (include_citations : bool) (min_delay max_delay : Z)
    (acc : list ResultRecord * list string)
  : M (list ResultRecord * list string) :=
  for_each topic_list
    (fun topic =>
       for_each years (sweep_body include_citations min_delay max_delay topic))
    acc.

(** The handler of the search tab, from the stripped, non-blank lines
    [topic_list] on. *)
Definition api_search (topic_list : list string) (start_year end_year : Z)
    (include_citations : bool) (min_delay max_delay : Z) : M Outcome :=
  if start_year >? end_year then
    ret (Rejected "Start year must be less than or equal to end year.")
  else
    let years := range start_year (end_year + 1) in
    '(results, errors) <-
       sweep_loops topic_list years include_citations min_delay max_delay
                   ([], []) ;;
    ret (Swept results errors).

End Program.

(** ** create_plot *)

(** A data frame: named columns of cells, in column order. *)
Inductive Cell :=
| CInt (n : Z)
| CStr (s : string)
| CFloat (q : Q).

Definition cell_eqb (a b : Cell) : bool :=
  match a, b with
  | CInt m, CInt n => m =? n
  | CStr s, CStr t => String.eqb s t
  | CFloat p, CFloat q => Qeq_bool p q
  | CInt m, CFloat q => Qeq_bool (inject_Z m) q
  | CFloat p, CInt n => Qeq_bool p (inject_Z n)
  | _, _ => false
  end.

Definition DataFrame : Type := list (string * list Cell).

(** [df.columns] *)
Definition columns (df : DataFrame) : list string := map fst df.

(** [df[x]]; [None] is the [KeyError] of a missing column. *)
Fixpoint column (df : DataFrame) (x : string) : option (list Cell) :=
  match df with
  | [] => None
  | (name, cells) :: df' => if String.eqb name x then Some cells else column df' x
  end.

(** [series.unique()]: the distinct values, in order of first appearance. *)
Fixpoint unique (cells : list Cell) : list Cell :=
  match cells with
  | [] => []
  | c :: cells' => c :: filter (fun d => negb (cell_eqb c d)) (unique cells')
  end.

Inductive ChartKind := LineChart | BarChart | AreaChart.

(** The chart specification a plotly figure stands for. *)
Record Figure := mkFigure {
  chart : ChartKind;
  f_x : string;
  f_y : string;
  f_color : string;
  f_title : string;
  f_labels : list (string * string);
  f_markers : bool;
  f_barmode : option string;
  (* xaxis.dtick, set by update_layout *)
  f_dtick : option Z
}.

Inductive PyError :=
| UnboundLocalError (name : string)
| KeyError (key : string)
| ValueError (argument : string).

Inductive Raises (A : Type) :=
| Returns (a : A)
| Raised (e : PyError).
Arguments Returns {A} a.
Arguments Raised {A} e.

(** What [px.line], [px.bar] and [px.area] check before they build a
    figure: each of [x], [y] and [color] names a column of the frame,
    otherwise plotly raises a [ValueError] for the first that does not. *)
Definition px_check (df : DataFrame) (x y color : string) : option PyError :=
  if negb (existsb (String.eqb x) (columns df)) then Some (ValueError "x")
  else if negb (existsb (String.eqb y) (columns df)) then Some (ValueError "y")
  else if negb (existsb (String.eqb color) (columns df)) then
    Some (ValueError "color")
  else None.

Definition px_chart (kind : ChartKind) (markers : bool)
    (barmode : option string) (df : DataFrame) (x y color title : string)
    (labels : list (string * string)) : Raises Figure :=
  match px_check df x y color with
  | Some e => Raised e
  | None => Returns (mkFigure kind x y color title labels markers barmode None)
  end.

(** [px.line(df, x=x, y=y, color=color, markers=True, title=title,
    labels=labels)] *)
Definition px_line := px_chart LineChart true None.

(** [px.bar(df, ..., title=title, labels=labels, barmode="group")] *)
Definition px_bar := px_chart BarChart false (Some "group").

(** [px.area(df, ..., title=title, labels=labels)] *)
Definition px_area := px_chart AreaChart false None.

(** [fig.update_layout(xaxis=dict(tickmode='linear', dtick=dtick), ...)] *)
Definition update_layout (fig : Figure) (dtick : Z) : Figure :=
  mkFigure (chart fig) (f_x fig) (f_y fig) (f_color fig) (f_title fig)
           (f_labels fig) (f_markers fig) (f_barmode fig) (Some dtick).

(** The local variable [fig] after the [if]/[elif] chain: [None] when no
    branch was taken and the name is still unbound. *)
Definition create_plot_fig (df : DataFrame) (plot_type x y color title : string)
    (labels : list (string * string)) : option (Raises Figure) :=
  if String.eqb plot_type "Line Plot" then
    Some (px_line df x y color title labels)
  else if String.eqb plot_type "Bar Plot" then
    Some (px_bar df x y color title labels)
  else if String.eqb plot_type "Area Plot" then
    Some (px_area df x y color title labels)
  else None.

Definition create_plot (df : DataFrame) (plot_type x y color title : string)
    (labels : list (string * string)) : Raises Figure :=
  match create_plot_fig df plot_type x y color title labels with
  | None => Raised (UnboundLocalError "fig")
  | Some (Raised e) => Raised e
  | Some (Returns fig) =>
    match column df x with
    | None => Raised (KeyError x)
    | Some cells =>
      Returns (update_layout fig
                 (Z.max 1 (Z.of_nat (length (unique cells)) / 10)))
    end
  end.

(** ** Reading a run *)

(** How the [try] block of the executor ends on the reply to its first
    request: the 429 branch, a [RequestException] (raised by [requests.get]
    or by [raise_for_status]), or the decoded body. *)
Inductive Attempt :=
| RateLimited
| Failed (e : string)
| Succeeded (data : Json).

Definition classify (g : GetResult) : Attempt :=
  match g with
  | Raise e => Failed e
  | Reply response =>
    if status_code response =? 429 then RateLimited
    else match raise_for_status response with
         | Some e => Failed e
         | None => Succeeded (body response)
         end
  end.

(** How the inner [try] of the citation sampling ends: [Some e] when the
    second request raises. *)
Definition citation_failure (g : GetResult) : option string :=
  match g with
  | Raise e => Some e
  | Reply response => raise_for_status response
  end.

Definition primary_params (query : string) (year : Z) : Params :=
  mkParams query (str year) 1 "year".

Definition citation_params (query : string) (year : Z) : Params :=
  mkParams query (str year) 100 "citationCount".

(** The world after one request. *)
Definition after_get (p : Params) (w : World) : World :=
  mkWorld (S (requests_made w)) (draws_made w) (trace w ++ [EvGet p]).

(** The world after [random.uniform(a, b)] and a sleep of [base + draw]. *)
Definition after_sleep (rnd : nat -> Q) (k : SleepKind) (base a b : Q)
    (w : World) : World :=
  mkWorld (requests_made w) (S (draws_made w))
          (trace w ++ [EvSleep k (base + (a + (b - a) * rnd (draws_made w)))%Q]).

(** The sleeps of a trace, in order. *)
Fixpoint sleeps_of (tr : list Event) : list (SleepKind * Q) :=
  match tr with
  | [] => []
  | EvGet _ :: tr' => sleeps_of tr'
  | EvSleep k t :: tr' => (k, t) :: sleeps_of tr'
  end.

Definition total_of (data : Json) : Z :=
  match js_total data with
  | Some t => t
  | None => 0
  end.

Definition advisory (e : string) : string :=
  "Got publication count but couldn't retrieve citation data: " ++ e.

(** The reply is a rate-limit response. *)
Definition rate_limit_response (g : GetResult) : Prop :=
  exists response, g = Reply response /\ status_code response = 429.

(** A backoff sleep of kind [k] and length [t] fits retry number [n], made
    after the reply [g]: base 3 after a rate-limit response, base 2 after a
    [RequestException], and a jitter in [0, 1). *)
Definition backoff_fits (n : Z) (g : GetResult) (k : SleepKind) (t : Q)
  : Prop :=
  (k = RateLimitBackoff /\ classify g = RateLimited
   /\ (inject_Z (3 ^ n) <= t)%Q /\ (t < inject_Z (3 ^ n) + 1)%Q)
  \/
  (k = ErrorBackoff /\ (exists e, classify g = Failed e)
   /\ (inject_Z (2 ^ n) <= t)%Q /\ (t < inject_Z (2 ^ n) + 1)%Q).

(** An event a call of the executor for [(query, year)] may emit after its
    first request: a further request for the same pair or a backoff sleep,
    never a courtesy sleep. *)
Definition call_event (query : string) (year : Z) (e : Event) : Prop :=
  match e with
  | EvGet p => p_query p = query /\ p_year p = str year
  | EvSleep Courtesy _ => False
  | EvSleep _ _ => True
  end.

Section Runs.

Variable http : nat -> GetResult.
Variable rnd : nat -> Q.
Variable query : string.
Variable year : Z.
Variable include_citations : bool.
Variable max_retries : Z.

(** The runs of the retry loop from [retry_count] in a world, case by case
    as the body of the loop reads. *)
Inductive loop_run : Z -> World -> ReturnSite * Result -> World -> Prop :=
| run_fallback rc w :
    max_retries < rc ->
    loop_run rc w (AtFallback, (0, 0%Q, Some "Max retries exceeded")) w
| run_rate_limit_exhausted rc w :
    rc <= max_retries ->
    classify (http (requests_made w)) = RateLimited ->
    max_retries < rc + 1 ->
    loop_run rc w
      (AtRateLimit,
       (0, 0%Q, Some ("Rate limit exceeded after " ++ str max_retries
                      ++ " retries")))
      (after_get (primary_params query year) w)
| run_rate_limit_retry rc w out w' :
    rc <= max_retries ->
    classify (http (requests_made w)) = RateLimited ->
    rc + 1 <= max_retries ->
    loop_run (rc + 1)
      (after_sleep rnd RateLimitBackoff (inject_Z (3 ^ (rc + 1))) 0 1
         (after_get (primary_params query year) w)) out w' ->
    loop_run rc w out w'
| run_error_return rc w e :
    rc <= max_retries ->
    classify (http (requests_made w)) = Failed e ->
    max_retries < rc + 1 \/ str_in "429" e = false ->
    loop_run rc w (AtApiError, (0, 0%Q, Some ("API Error: " ++ e)))
      (after_get (primary_params query year) w)
| run_error_retry rc w e out w' :
    rc <= max_retries ->
    classify (http (requests_made w)) = Failed e ->
    rc + 1 <= max_retries ->
    str_in "429" e = true ->
    loop_run (rc + 1)
      (after_sleep rnd ErrorBackoff (inject_Z (2 ^ (rc + 1))) 0 1
         (after_get (primary_params query year) w)) out w' ->
    loop_run rc w out w'
| run_success rc w data :
    rc <= max_retries ->
    classify (http (requests_made w)) = Succeeded data ->
    include_citations && (total_of data >? 0) = false ->
    loop_run rc w (AtSuccess, (total_of data, 0%Q, None))
      (after_get (primary_params query year) w)
| run_success_citations rc w data citation_count error_msg :
    rc <= max_retries ->
    classify (http (requests_made w)) = Succeeded data ->
    include_citations && (total_of data >? 0) = true ->
    sample_citations http query year
      (after_get (primary_params query year) w)
    = Some ((citation_count, error_msg),
            after_get (citation_params query year)
              (after_get (primary_params query year) w)) ->
    loop_run rc w (AtSuccess, (total_of data, citation_count, error_msg))
      (after_get (citation_params query year)
         (after_get (primary_params query year) w)).

End Runs.

(** An attempt the loop answers with a backoff sleep and a further
    request, while retries remain. *)
Definition retried (g : GetResult) : bool :=
  match classify g with
  | RateLimited => true
  | Failed e => str_in "429" e
  | Succeeded _ => false
  end.

(** The world after the courtesy delay of the sweep loop. *)
Definition after_delay (rnd : nat -> Q) (min_delay max_delay : Z) (w : World)
  : World :=
  mkWorld (requests_made w) (S (draws_made w))
          (trace w ++ [EvSleep Courtesy
                         (inject_Z min_delay
                          + (inject_Z max_delay - inject_Z min_delay)
                            * rnd (draws_made w))%Q]).

(** A delay the sweep loop can draw: [random.uniform(min_delay, max_delay)]
    at some draw of the generator. *)
Definition drawn_delay (rnd : nat -> Q) (min_delay max_delay : Z) (d : Q)
  : Prop :=
  exists i, d = (inject_Z min_delay
                 + (inject_Z max_delay - inject_Z min_delay) * rnd i)%Q.

(** The pair a record is for. *)
Definition key (r : ResultRecord) : string * Z := (Topic r, Year r).

(** The ["Average Citations"] key of a record: there exactly when citation
    inclusion was requested, and 0 when the record has no publications. *)
Definition citations_field (include_citations : bool) (r : ResultRecord)
  : Prop :=
  (Average_Citations r <> None <-> include_citations = true)
  /\ (include_citations = true -> Publications r <= 0 ->
      Average_Citations r = Some 0%Q).

(** A trace made of one call of the executor per pair, each call begun by
    its first request and each preceded by a courtesy sleep whose length
    satisfies [good]. *)
Inductive delayed_calls (good : Q -> Prop)
  : list (string * Z) -> list Event -> Prop :=
| delayed_nil : delayed_calls good [] []
| delayed_cons topic year pairs delay call rest :
    good delay ->
    Forall (call_event topic year) call ->
    delayed_calls good pairs rest ->
    delayed_calls good ((topic, year) :: pairs)
      (EvSleep Courtesy delay
       :: EvGet (primary_params topic year) :: call ++ rest).

(** The three plot types of the radio buttons. *)
Definition plot_types : list string := ["Line Plot"; "Bar Plot"; "Area Plot"].

(** ** build_query *)

(** [sep.join(parts)] *)
Fixpoint join (sep : string) (parts : list string) : string :=
  match parts with
  | [] => ""
  | p :: parts' =>
    match parts' with
    | [] => p
    | _ :: _ => p ++ sep ++ join sep parts'
    end
  end.

(** [f"{field}:{topic}"] for one of the three field names. *)
Definition field_term (field topic : string) : string :=
  field ++ ":" ++ topic.

(** The terms [build_query] collects in [query_parts], in order. *)
Definition query_parts (topic : string)
    (search_title search_abstract search_keywords : bool) : list string :=
  ((if search_title then [field_term "title" topic] else [])
   ++ (if search_abstract then [field_term "abstract" topic] else [])
   ++ (if search_keywords then [field_term "keywords" topic] else []))%list.

Definition build_query (topic : string)
    (search_title search_abstract search_keywords : bool) : string :=
  let parts := query_parts topic search_title search_abstract search_keywords in
  match parts with
  | [] => topic
  | _ :: _ => join " OR " parts
  end.

(** ** The topics of the form *)

(** [c.isspace()] for a character below 256: tab to carriage return, the
    four separators 28 to 31, the space, NEL and the no-break space. *)
Definition isspace (c : ascii) : bool :=
  let n := nat_of_ascii c in
  ((9 <=? n) && (n <=? 13) || (28 <=? n) && (n <=? 32)
   || (n =? 133) || (n =? 160))%nat.

Fixpoint lstrip (s : string) : string :=
  match s with
  | EmptyString => EmptyString
  | String c s' => if isspace c then lstrip s' else s
  end.

Fixpoint rstrip (s : string) : string :=
  match s with
  | EmptyString => EmptyString
  | String c s' =>
    match rstrip s' with
    | EmptyString => if isspace c then EmptyString else String c EmptyString
    | String _ _ as r => String c r
    end
  end.

(** [s.strip()] *)
Definition strip (s : string) : string := rstrip (lstrip s).

(** [s.split(sep)] for a one-character separator. *)
Fixpoint split (sep : ascii) (s : string) : list string :=
  match s with
  | EmptyString => [EmptyString]
  | String c s' =>
    if Ascii.eqb c sep then EmptyString :: split sep s'
    else match split sep s' with
         | [] => [String c EmptyString]
         | p :: ps => String c p :: ps
         end
  end.

Definition newline : ascii := "010"%char.

(** [[topic.strip() for topic in topics.split('\n') if topic.strip()]] *)
Definition parse_topics (topics : string) : list string :=
  map strip
      (filter (fun topic => negb (String.eqb (strip topic) EmptyString))
              (split newline topics)).

Section SearchTab.

Variable http : nat -> GetResult.
Variable rnd : nat -> Q.

(** The handler of the search tab from the form values on: [None] when
    the form was not submitted or the topics box is empty. *)
Definition search_tab (submitted : bool) (topics : string)
    (start_year end_year : Z) (include_citations : bool)
    (min_delay max_delay : Z) : M (option Outcome) :=
  if submitted && negb (String.eqb topics EmptyString) then
    let topic_list := parse_topics topics in
    outcome <- api_search http rnd topic_list start_year end_year
                 include_citations min_delay max_delay ;;
    ret (Some outcome)
  else ret None.

End SearchTab.

(** ** display_visualizations and the upload tab *)

(** The charts [display_visualizations] plots, in order, for the two radio
    selections; the second radio and chart exist only when the frame has
    the column ["Average Citations"]. *)
Definition display_visualizations (df : DataFrame)
    (selected_plot_type citation_plot_type : string) : Raises (list Figure) :=
  match create_plot df selected_plot_type "Year" "Publications" "Topic"
          "Publication Trends Over Time"
          [("Publications", "Number of Publications"); ("Year", "Year")] with
  | Raised e => Raised e
  | Returns pub_fig =>
    if existsb (String.eqb "Average Citations") (columns df) then
      match create_plot df citation_plot_type "Year" "Average Citations"
              "Topic" "Average Citations Per Paper Over Time"
              [("Average Citations", "Average Citations"); ("Year", "Year")]
      with
      | Raised e => Raised e
      | Returns citation_fig => Returns [pub_fig; citation_fig]
      end
    else Returns [pub_fig]
  end.

Definition required_columns : list string := ["Topic"; "Year"; "Publications"].

(** The file of the uploader: none, or one that [pd.read_csv] fails on
    (with the text of the exception) or reads as a frame. *)
Inductive Upload :=
| NoFile
| Unreadable (e : string)
| Parsed (df_upload : DataFrame).

(** What the upload tab tells the user. *)
Inductive Notice :=
| StError (text : string)
| StSuccess (text : string)
| StWarning (text : string).

(** [st.session_state]: the key ["uploaded_df"], when set. *)
Definition Session : Type := option DataFrame.

(** The preview block of the upload tab ([if uploaded_file is not None]). *)
Definition upload_preview (uploaded_file : Upload) (session : Session)
  : list Notice * Session :=
  match uploaded_file with
  | NoFile => ([], session)
  | Unreadable e => ([StError ("Error reading the file: " ++ e)], session)
  | Parsed df_upload =>
    if negb (forallb (fun col => existsb (String.eqb col) (columns df_upload))
                     required_columns) then
      ([StError ("Missing required columns. Please ensure your CSV has: "
                 ++ join ", " required_columns)], session)
    else ([StSuccess "Data uploaded successfully!"], Some df_upload)
  end.

(** [df[name] = cells]: the column is replaced where it stands, or added
    at the end. *)
Fixpoint set_column (df : DataFrame) (name : string) (cells : list Cell)
  : DataFrame :=
  match df with
  | [] => [(name, cells)]
  | (n, old) :: df' =>
    if String.eqb n name then (n, cells) :: df'
    else (n, old) :: set_column df' name cells
  end.

Section UploadTab.

(** Two operations of pandas on a column: whether its dtype is [int64],
    and [astype(int)], [None] when it raises. *)
Variable is_int64 : list Cell -> bool.
Variable astype_int : list Cell -> option (list Cell).

(** The block that shows the uploaded data.  The frame is the object the
    session holds, so the converted year column stays in the session.
    [None] when the block does not run. *)
Definition upload_display (uploaded_file : Upload) (session : Session)
    (selected_plot_type citation_plot_type : string)
  : option (list Notice * Raises (list Figure) * Session) :=
  match session, uploaded_file with
  | None, _ => None
  | Some _, NoFile => None
  | Some df_upload, _ =>
    match column df_upload "Year" with
    | None => Some ([], Raised (KeyError "Year"), session)
    | Some years =>
      let '(notices, df_upload) :=
        if negb (is_int64 years) then
          match astype_int years with
          | Some converted => ([], set_column df_upload "Year" converted)
          | None =>
            ([StWarning "Could not convert Year column to integers. Make sure years are valid numbers."],
             df_upload)
          end
        else ([], df_upload) in
      Some (notices,
            display_visualizations df_upload selected_plot_type
              citation_plot_type,
            Some df_upload)
    end
  end.

(** One run of the script over the upload tab: the preview, then the
    display block on the session the preview leaves (the search handler
    that runs between the two does not touch the session; a run it aborts
    by raising never reaches the display block and is not a run of this
    function). *)
Definition upload_run (uploaded_file : Upload)
    (selected_plot_type citation_plot_type : string) (session : Session)
  : list Notice * option (Raises (list Figure)) * Session :=
  let '(notices, session) := upload_preview uploaded_file session in
  match upload_display uploaded_file session selected_plot_type
          citation_plot_type with
  | None => (notices, None, session)
  | Some (more, shown, session') => ((notices ++ more)%list, Some shown, session')
  end.

End UploadTab.

(** ** Measures of a trace *)

(** The requests of a trace, in order. *)
Fixpoint requests_of (tr : list Event) : list Params :=
  match tr with
  | [] => []
  | EvGet p :: tr' => p :: requests_of tr'
  | EvSleep _ _ :: tr' => requests_of tr'
  end.

(** The time a trace spends asleep. *)
Fixpoint time_asleep (tr : list Event) : Q :=
  match tr with
  | [] => 0
  | EvGet _ :: tr' => time_asleep tr'
  | EvSleep _ t :: tr' => t + time_asleep tr'
  end.

(** The backoff sleeps of a trace. *)
Definition backoffs_of (tr : list Event) : list (SleepKind * Q) :=
  filter (fun s => match fst s with Courtesy => false | _ => true end)
         (sleeps_of tr).

(** The results of the executor, by kind: no message; the advisory message
    beside a positive count; or a failure, all zeros and a message. *)
Inductive ResultKind : Result -> Prop :=
| kind_clean pub cit : ResultKind (pub, cit, None)
| kind_advisory pub e : 0 < pub -> ResultKind (pub, 0%Q, Some (advisory e))
| kind_failed msg : msg <> "" -> ResultKind (0, 0%Q, Some msg).

(** A sweep as a sequence of passes through the loop body, one per pair:
    the record appended, the error lines appended, the events emitted,
    each pass satisfying [Step]. *)
Inductive passes
    (Step : string -> Z -> ResultRecord -> list string -> list Event -> Prop)
  : list (string * Z) -> list ResultRecord -> list string -> list Event
    -> Prop :=
| passes_nil : passes Step [] [] [] []
| passes_cons topic year pairs r es d rs ess ds :
    Step topic year r es d ->
    passes Step pairs rs ess ds ->
    passes Step ((topic, year) :: pairs) (r :: rs) (es ++ ess) (d ++ ds).

(** What one pass of the loop body leaves, whatever the replies: the
    record of the pair; no error line or one line for the pair, whose
    message beside a positive count is the advisory one; the courtesy sleep
    and then the events of the call, with its requests and backoff sleeps
    counted for the default [max_retries]. *)
Definition pass_shape (topic : string) (year : Z) (r : ResultRecord)
    (es : list string) (d : list Event) : Prop :=
  key r = (topic, year)
  /\ (es = []
      \/ exists m, es = [error_line topic year (Some m)] /\ m <> ""
                   /\ (0 < Publications r -> exists e, m = advisory e))
  /\ exists delay call,
       d = EvSleep Courtesy delay :: call
       /\ (1 <= length (requests_of call))%nat
       /\ (length (requests_of call) <= 5)%nat
       /\ (length (sleeps_of call) <= 3)%nat
       /\ backoffs_of call = sleeps_of call.

(** The time one pass of the loop body sleeps: the courtesy delay, and
    at most 42 seconds of backoff for the default [max_retries]. *)
Definition pass_time (min_delay max_delay : Z) (topic : string) (year : Z)
    (r : ResultRecord) (es : list string) (d : list Event) : Prop :=
  (inject_Z min_delay <= time_asleep d)%Q
  /\ (time_asleep d <= inject_Z max_delay + 42)%Q.

(** One pass of the loop body when no reply is retried: the courtesy
    sleep, the count request, and the citation request exactly when
    citations are included and the count is positive. *)
Definition pass_quiet (include_citations : bool) (topic : string) (year : Z)
    (r : ResultRecord) (es : list string) (d : list Event) : Prop :=
  exists delay,
    d = EvSleep Courtesy delay
        :: EvGet (primary_params topic year)
        :: (if include_citations && (Publications r >? 0)
            then [EvGet (citation_params topic year)] else []).

(** [paper.get('citationCount', 0)] *)
Definition paper_citations (p : Paper) : Z :=
  match citationCount p with
  | Some c => c
  | None => 0
  end.

(** The sample of a paper-list envelope: its [data] list, empty when the
    key is absent. *)
Definition sample_of (data : Json) : list Paper :=
  match js_data data with
  | Some papers => papers
  | None => []
  end.

(** A frame with the three required columns. *)
Definition has_required (df : DataFrame) : Prop :=
  forall col, In col required_columns -> In col (columns df).

(** A session whose frame, if it holds one, has the required columns. *)
Definition session_ok (session : Session) : Prop :=
  match session with
  | None => True
  | Some df => has_required df
  end.

(** The chart kind, markers and bar mode [create_plot] gives each plot
    type. *)
Definition chart_of (plot_type : string)
  : option (ChartKind * bool * option string) :=
  if String.eqb plot_type "Line Plot" then Some (LineChart, true, None)
  else if String.eqb plot_type "Bar Plot" then
    Some (BarChart, false, Some "group")
  else if String.eqb plot_type "Area Plot" then Some (AreaChart, false, None)
  else None.

Section UploadRuns.

Variable is_int64 : list Cell -> bool.
Variable astype_int : list Cell -> option (list Cell).

(** Successive runs of the script, each with the file in the uploader and
    the two radio selections: what the display block did in each run, and
    the session left at the end. *)
Fixpoint upload_runs (inputs : list (Upload * string * string))
    (session : Session)
  : list (option (Raises (list Figure))) * Session :=
  match inputs with
  | [] => ([], session)
  | (uploaded_file, selected, citation_selected) :: inputs' =>
    let '(_, shown, session') :=
      upload_run is_int64 astype_int uploaded_file selected citation_selected
        session in
    let '(rest, final) := upload_runs inputs' session' in
    (shown :: rest, final)
  end.

End UploadRuns.

(** The check of the upload tab: every required column is a column of
    the frame. *)
Definition accepts (df : DataFrame) : bool :=
  forallb (fun col => existsb (String.eqb col) (columns df)) required_columns.

(** A file the preview block turns down: unreadable, or read as a frame
    without a required column. *)
Definition rejected (uploaded_file : Upload) : Prop :=
  match uploaded_file with
  | NoFile => False
  | Unreadable _ => True
  | Parsed df => accepts df = false
  end.

(** The display block plotted its charts, or did not run. *)
Definition shown_ok (shown : option (Raises (list Figure))) : Prop :=
  match shown with
  | None => True
  | Some (Returns _) => True
  | Some (Raised _) => False
  end.

(** ** Binary64 rounding *)

(** The integer nearest to [x], a tie going to the even one. *)
Definition round_half_even (x : Q) : Z :=
  let f := Qfloor x in
  match Qcompare (x - inject_Z f) (1 # 2) with
  | Lt => f
  | Gt => f + 1
  | Eq => if Z.even f then f else f + 1
  end.

(** [2^e] for any integer [e]. *)
Definition pow2 (e : Z) : Q :=
  if 0 <=? e then inject_Z (2 ^ e) else (/ inject_Z (2 ^ (- e)))%Q.

(** The exponent [e] with [2^e <= q < 2^(e+1)], for [q > 0]. *)
Definition binade (q : Q) : Z :=
  if Qle_bool 1 q then Z.log2 (Qfloor q)
  else - Z.log2_up (Qceiling (/ q)).

(** The binary64 float nearest to [q] (round to nearest, ties to even,
    53 significant bits), as a rational: what a float addition or
    division of the program returns for the exact result [q].  Exponent
    range is left out: it is exact for [q = 0] and for
    [2^-1022 <= |q| < 2^1024]. *)
Definition binary64 (q : Q) : Q :=
  match Qcompare q 0 with
  | Eq => 0%Q
  | Gt => let ulp := pow2 (binade q - 52) in
          (inject_Z (round_half_even (q / ulp)) * ulp)%Q
  | Lt => let ulp := pow2 (binade (- q) - 52) in
          (- (inject_Z (round_half_even (- q / ulp)) * ulp))%Q
  end.

(** The float the program sleeps for a backoff whose exact sum is [t] fits
    retry number [n], made after the reply [g]: between [3^n] and
    [3^n + 1], both included, after a rate-limit response, and between
    [2^n] and [2^n + 1] after a [RequestException]. *)
Definition backoff_rounds (n : Z) (g : GetResult) (k : SleepKind) (t : Q)
  : Prop :=
  (k = RateLimitBackoff /\ classify g = RateLimited
   /\ (inject_Z (3 ^ n) <= binary64 t)%Q
   /\ (binary64 t <= inject_Z (3 ^ n) + 1)%Q)
  \/
  (k = ErrorBackoff /\ (exists e, classify g = Failed e)
   /\ (inject_Z (2 ^ n) <= binary64 t)%Q
   /\ (binary64 t <= inject_Z (2 ^ n) + 1)%Q).

(** The arithmetic mean of the citation counts of a sample, a paper
    without a count counting as 0, and 0 for the empty sample. *)
Definition sample_mean (papers : list Paper) : Q :=
  match papers with
  | [] => 0%Q
  | _ :: _ =>
    (inject_Z (fold_right Z.add 0%Z (map paper_citations papers))
     / inject_Z (Z.of_nat (length papers)))%Q
  end.

(** ** Sample environments *)

(** A 200 reply whose body is a total-count envelope. *)
Definition ok_reply (total : Z) : GetResult :=
  Reply (mkResponse 200 "OK" base_url (mkJson (Some total) None)).

(** A rate-limit reply. *)
Definition too_many_requests : GetResult :=
  Reply (mkResponse 429 "Too Many Requests" base_url (mkJson None None)).

(** A server error. *)
Definition server_error : GetResult :=
  Reply (mkResponse 500 "Internal Server Error" base_url (mkJson None None)).

(** The environment that answers the first request with [g1] and every
    later one with [g2]. *)
Definition first_then (g1 g2 : GetResult) : nat -> GetResult :=
  fun i => match i with
           | O => g1
           | S _ => g2
           end.

(** A 200 reply whose body is a paper-list envelope of three papers, one
    of them without a citation count. *)
Definition sample_citation_response : Response :=
  mkResponse 200 "OK" base_url
    (mkJson None (Some [mkPaper (Some 4); mkPaper None; mkPaper (Some 8)])).

(** A generator whose every draw is the float just below 1,
    [1 - 2^-53]. *)
Definition almost_one : nat -> Q :=
  fun _ => (9007199254740991 # 9007199254740992)%Q.

(** A generator whose every draw is one half. *)
Definition half : nat -> Q := fun _ => (1 # 2)%Q.

(** A frame with the columns of a result table. *)
Definition sample_frame : DataFrame :=
  [("Topic", [CStr "AI"; CStr "AI"]);
   ("Year", [CInt 2020; CInt 2021]);
   ("Publications", [CInt 150; CInt 0])].

(** A goal [exists out w', Some _ = Some (out, w') /\ _]: name the result. *)
Ltac returns := do 2 eexists; split; [reflexivity | ].

Section Executor.

Variable http : nat -> GetResult.
Variable rnd : nat -> Q.
Variable query : string.
Variable year : Z.
Variable include_citations : bool.
Variable max_retries : Z.

Local Abbreviation loop_run :=
  (loop_run http rnd query year include_citations max_retries).

(** *** The citation sampling *)

Lemma sample_citations_total w :
  exists citation_count error_msg,
    sample_citations http query year w
    = Some ((citation_count, error_msg),
            after_get (citation_params query year) w).
Proof.
  unfold sample_citations, bind, requests_get, ret; cbn.
  fold (citation_params query year). fold (after_get (citation_params query year) w).
  destruct (http (requests_made w)) as [e | r].
  - eauto.
  - destruct (raise_for_status r) as [e | ]; [eauto | ].
    destruct (js_data (body r)) as [[ | p papers] | ]; eauto.
Qed.

Lemma sample_citations_failure w e :
  citation_failure (http (requests_made w)) = Some e ->
  sample_citations http query year w
  = Some ((0%Q, Some (advisory e)), after_get (citation_params query year) w).
Proof.
  unfold citation_failure, sample_citations, bind, requests_get, ret; cbn.
  destruct (http (requests_made w)) as [e' | r]; intros H.
  - now inversion H.
  - now rewrite H.
Qed.

(** *** One iteration of the loop *)

Lemma search_loop_exit fuel rc w :
  max_retries < rc ->
  search_loop http rnd query year include_citations max_retries fuel rc w
  = Some ((AtFallback, (0, 0%Q, Some "Max retries exceeded")), w).
Proof.
  intros H. destruct fuel; simpl;
    (destruct (rc <=? max_retries) eqn:E; [apply Z.leb_le in E; lia | reflexivity]).
Qed.

Lemma search_loop_step fuel rc w :
  rc <= max_retries ->
  search_loop http rnd query year include_citations max_retries (S fuel) rc w
  = let w1 := after_get (primary_params query year) w in
    let again (k : SleepKind) (base : Z) :=
      search_loop http rnd query year include_citations max_retries fuel
        (rc + 1) (after_sleep rnd k (inject_Z (base ^ (rc + 1))) 0 1 w1) in
    match classify (http (requests_made w)) with
    | RateLimited =>
      if rc + 1 >? max_retries then
        Some ((AtRateLimit,
               (0, 0%Q, Some ("Rate limit exceeded after " ++ str max_retries
                              ++ " retries"))), w1)
      else again RateLimitBackoff 3
    | Failed e =>
      if (rc + 1 >? max_retries) || negb (str_in "429" e) then
        Some ((AtApiError, (0, 0%Q, Some ("API Error: " ++ e))), w1)
      else again ErrorBackoff 2
    | Succeeded data =>
      if include_citations && (total_of data >? 0) then
        match sample_citations http query year w1 with
        | Some ((citation_count, error_msg), w2) =>
          Some ((AtSuccess, (total_of data, citation_count, error_msg)), w2)
        | None => None
        end
      else Some ((AtSuccess, (total_of data, 0%Q, None)), w1)
    end.
Proof.
  intros H. apply Z.leb_le in H.
  cbn [search_loop]. rewrite H.
  unfold bind at 1. unfold requests_get at 1. cbn [requests_made draws_made trace].
  fold (primary_params query year). fold (after_get (primary_params query year) w).
  unfold classify.
  destruct (http (requests_made w)) as [e | r].
  - destruct ((rc + 1 >? max_retries) || negb (str_in "429" e)); reflexivity.
  - destruct (status_code r =? 429).
    + destruct (rc + 1 >? max_retries); reflexivity.
    + destruct (raise_for_status r) as [e | ].
      * destruct ((rc + 1 >? max_retries) || negb (str_in "429" e)); reflexivity.
      * fold (total_of (body r)).
        destruct (include_citations && (total_of (body r) >? 0)); [ | reflexivity].
        unfold bind.
        destruct (sample_citations http query year
                    (after_get (primary_params query year) w))
          as [[[c e] w2] | ]; reflexivity.
Qed.

(** *** The loop always returns, along one of the runs *)

Lemma search_loop_runs fuel : forall rc w,
  (Z.to_nat (max_retries + 1 - rc) <= fuel)%nat ->
  exists out w',
    search_loop http rnd query year include_citations max_retries fuel rc w
    = Some (out, w')
    /\ loop_run rc w out w'.
Proof.
  induction fuel as [ | fuel IH]; intros rc w Hfuel.
  - assert (max_retries < rc) by lia.
    rewrite search_loop_exit by assumption.
    returns; now apply run_fallback.
  - destruct (Z_lt_le_dec max_retries rc) as [Hgt | Hle].
    { rewrite search_loop_exit by assumption. returns; now apply run_fallback. }
    rewrite search_loop_step by assumption. cbv zeta.
    destruct (classify (http (requests_made w))) as [ | e | data] eqn:Hc.
    + destruct (rc + 1 >? max_retries) eqn:Hr.
      * apply Z.gtb_lt in Hr. returns; now apply run_rate_limit_exhausted.
      * assert (rc + 1 <= max_retries)
          by (destruct (Z_lt_le_dec max_retries (rc + 1)) as [Hlt | ];
              [apply Z.gtb_lt in Hlt; congruence | assumption]).
        edestruct (IH (rc + 1)) as (out & w' & Hrun & Hok); [lia | ].
        rewrite Hrun. returns; now apply run_rate_limit_retry.
    + destruct (rc + 1 >? max_retries) eqn:Hr; cbn [orb].
      * apply Z.gtb_lt in Hr. returns; apply run_error_return; auto.
      * destruct (str_in "429" e) eqn:Hs; cbn [negb].
        -- assert (rc + 1 <= max_retries)
             by (destruct (Z_lt_le_dec max_retries (rc + 1)) as [Hlt | ];
                 [apply Z.gtb_lt in Hlt; congruence | assumption]).
           edestruct (IH (rc + 1)) as (out & w' & Hrun & Hok); [lia | ].
           rewrite Hrun. returns; now apply run_error_retry with (e := e).
        -- returns; apply run_error_return; auto.
    + destruct (include_citations && (total_of data >? 0)) eqn:Hi.
      * destruct (sample_citations_total
                    (after_get (primary_params query year) w))
          as (c & e & Hs).
        rewrite Hs. returns; now apply run_success_citations.
      * returns; now apply run_success.
Qed.

(** The executor itself: it returns, and what it returns is a run of the
    loop from [retry_count = 0]. *)
Lemma search_semantic_scholar_at_runs w :
  exists out w',
    search_semantic_scholar_at http rnd query year include_citations
      max_retries w = Some (out, w')
    /\ loop_run 0 w out w'.
Proof.
  unfold search_semantic_scholar_at, search_fuel.
  apply search_loop_runs. rewrite Z.sub_0_r. lia.
Qed.

Lemma search_semantic_scholar_of_at w out w' :
  search_semantic_scholar_at http rnd query year include_citations
    max_retries w = Some (out, w') ->
  search_semantic_scholar http rnd query year include_citations
    max_retries w = Some (snd out, w').
Proof.
  intros H. unfold search_semantic_scholar, bind. now rewrite H.
Qed.

(** *** What a run leaves in the trace *)

Lemma sleeps_of_app tr1 tr2 :
  sleeps_of (tr1 ++ tr2) = (sleeps_of tr1 ++ sleeps_of tr2)%list.
Proof.
  induction tr1 as [ | [p | k t] tr1 IH]; simpl; [reflexivity | assumption | ].
  now rewrite IH.
Qed.

Lemma jitter_bounds (base u : Q) :
  (0 <= u)%Q -> (u < 1)%Q ->
  (base <= base + (0 + (1 - 0) * u))%Q /\ (base + (0 + (1 - 0) * u) < base + 1)%Q.
Proof. intros H0 H1. split; lra. Qed.

(** A run that enters the loop body does not leave through the fallback. *)
Lemma loop_run_site rc w out w' :
  loop_run rc w out w' -> rc <= max_retries -> fst out <> AtFallback.
Proof.
  induction 1; intros Hle; simpl; try discriminate; try lia; auto.
Qed.

(** A run in which every remaining attempt is answered by a rate-limit
    response: it sleeps once per retry and gives up. *)
Lemma loop_run_rate_limited rc w out w' :
  loop_run rc w out w' ->
  rc <= max_retries ->
  (forall i, (i <= Z.to_nat (max_retries - rc))%nat ->
             classify (http (requests_made w + i)) = RateLimited) ->
  out = (AtRateLimit,
         (0, 0%Q, Some ("Rate limit exceeded after " ++ str max_retries
                        ++ " retries")))
  /\ exists delta,
       trace w' = (trace w ++ delta)%list
       /\ length (sleeps_of delta) = Z.to_nat (max_retries - rc).
Proof.
  induction 1 as [rc w Hgt | rc w Hle Hc Hlast | rc w out w' Hle Hc Hmore Hrun IH
                 | rc w e Hle Hc Hwhy | rc w e out w' Hle Hc Hmore Hs Hrun IH
                 | rc w data Hle Hc Hi | rc w data c m Hle Hc Hi Hs];
    intros Hrc Hall;
    try (specialize (Hall 0%nat (Nat.le_0_l _)); rewrite Nat.add_0_r in Hall;
         congruence).
  - lia.
  - split; [reflexivity | ].
    exists [EvGet (primary_params query year)]. split; [reflexivity | ].
    simpl. lia.
  - destruct IH as [Hout (delta & Htr & Hlen)]; [assumption | | ].
    { intros i Hi. cbn [after_sleep after_get requests_made].
      replace (S (requests_made w) + i)%nat with (requests_made w + S i)%nat by lia.
      apply Hall. lia. }
    split; [assumption | ].
    eexists (_ :: _ :: delta). split.
    + rewrite Htr. cbn [after_sleep after_get trace].
      rewrite <- !app_assoc. reflexivity.
    + simpl. rewrite Hlen. lia.
Qed.

(** Every backoff sleep of a run has the length its retry number asks
    for. *)
Lemma loop_run_backoffs rc w out w' :
  (forall i, (0 <= rnd i)%Q /\ (rnd i < 1)%Q) ->
  loop_run rc w out w' ->
  exists delta,
    trace w' = (trace w ++ delta)%list
    /\ forall n k t,
         nth_error (sleeps_of delta) n = Some (k, t) ->
         backoff_fits (rc + 1 + Z.of_nat n) (http (requests_made w + n)) k t.
Proof.
  intros Hrnd.
  assert (Hnone : forall p q n k t,
             nth_error (sleeps_of [EvGet p; EvGet q]) n = Some (k, t) -> False)
    by (intros p q [ | n] k t; discriminate).
  assert (Hone : forall p n k t,
             nth_error (sleeps_of [EvGet p]) n = Some (k, t) -> False)
    by (intros p [ | n] k t; discriminate).
  induction 1 as [rc w Hgt | rc w Hle Hc Hlast | rc w out w' Hle Hc Hmore Hrun IH
                 | rc w e Hle Hc Hwhy | rc w e out w' Hle Hc Hmore Hs Hrun IH
                 | rc w data Hle Hc Hi | rc w data c m Hle Hc Hi Hs].
  - exists []. split; [now rewrite app_nil_r | ].
    intros [ | n] k t; discriminate.
  - eexists. split; [reflexivity | ]. intros n k t Hn. now apply Hone in Hn.
  - destruct IH as (delta & Htr & Hall).
    eexists (_ :: _ :: delta). split.
    { rewrite Htr. cbn [after_sleep after_get trace].
      rewrite <- !app_assoc. reflexivity. }
    intros [ | n] k t Hn; cbn in Hn.
    + inversion Hn; subst k t. left.
      rewrite Nat.add_0_r, Z.add_0_r.
      destruct (Hrnd (draws_made w)) as [H0 H1].
      destruct (jitter_bounds (inject_Z (3 ^ (rc + 1))) _ H0 H1).
      repeat split; assumption.
    + apply Hall in Hn. cbn [after_sleep after_get requests_made] in Hn.
      replace (requests_made w + S n)%nat with (S (requests_made w) + n)%nat by lia.
      replace (rc + 1 + Z.of_nat (S n)) with (rc + 1 + 1 + Z.of_nat n) by lia.
      exact Hn.
  - eexists. split; [reflexivity | ]. intros n k t Hn. now apply Hone in Hn.
  - destruct IH as (delta & Htr & Hall).
    eexists (_ :: _ :: delta). split.
    { rewrite Htr. cbn [after_sleep after_get trace].
      rewrite <- !app_assoc. reflexivity. }
    intros [ | n] k t Hn; cbn in Hn.
    + inversion Hn; subst k t. right.
      rewrite Nat.add_0_r, Z.add_0_r.
      destruct (Hrnd (draws_made w)) as [H0 H1].
      destruct (jitter_bounds (inject_Z (2 ^ (rc + 1))) _ H0 H1).
      repeat split; eauto.
    + apply Hall in Hn. cbn [after_sleep after_get requests_made] in Hn.
      replace (requests_made w + S n)%nat with (S (requests_made w) + n)%nat by lia.
      replace (rc + 1 + Z.of_nat (S n)) with (rc + 1 + 1 + Z.of_nat n) by lia.
      exact Hn.
  - eexists. split; [reflexivity | ]. intros n k t Hn. now apply Hone in Hn.
  - eexists [_; _]. split.
    { cbn [after_get trace]. rewrite <- app_assoc. reflexivity. }
    intros n k t Hn. now apply Hnone in Hn.
Qed.

(** A run that enters the loop body starts with the request for its pair
    and emits nothing but events of that call. *)
Lemma loop_run_events rc w out w' :
  loop_run rc w out w' ->
  rc <= max_retries ->
  exists rest,
    trace w' = (trace w ++ EvGet (primary_params query year) :: rest)%list
    /\ Forall (call_event query year) rest.
Proof.
  induction 1 as [rc w Hgt | rc w Hle Hc Hlast | rc w out w' Hle Hc Hmore Hrun IH
                 | rc w e Hle Hc Hwhy | rc w e out w' Hle Hc Hmore Hs Hrun IH
                 | rc w data Hle Hc Hi | rc w data c m Hle Hc Hi Hs];
    intros Hrc.
  - lia.
  - exists []. split; [reflexivity | constructor].
  - destruct IH as (rest & Htr & Hall); [assumption | ].
    eexists (_ :: _ :: rest). split.
    + rewrite Htr. cbn [after_sleep after_get trace].
      rewrite <- !app_assoc. reflexivity.
    + repeat constructor; assumption.
  - exists []. split; [reflexivity | constructor].
  - destruct IH as (rest & Htr & Hall); [assumption | ].
    eexists (_ :: _ :: rest). split.
    + rewrite Htr. cbn [after_sleep after_get trace].
      rewrite <- !app_assoc. reflexivity.
    + repeat constructor; assumption.
  - exists []. split; [reflexivity | constructor].
  - eexists [_]. split.
    + cbn [after_get trace]. rewrite <- app_assoc. reflexivity.
    + repeat constructor.
Qed.

(** A result without publications carries the citation count 0. *)
Lemma loop_run_no_publications rc w site pub cit err w' :
  loop_run rc w (site, (pub, cit, err)) w' -> pub <= 0 -> cit = 0%Q.
Proof.
  intros H. remember (site, (pub, cit, err)) as out eqn:Hout.
  revert Hout. induction H; intros Hout Hpub; try (inversion Hout; reflexivity); auto.
  inversion Hout; subst.
  apply andb_prop in H1 as [_ Hpos]. apply Z.gtb_lt in Hpos. lia.
Qed.

(** A run whose first [k] attempts are retried, whose next attempt
    succeeds with a positive total, and whose citation request fails. *)
Lemma loop_run_advisory rc w out w' :
  loop_run rc w out w' ->
  forall (k : nat) data e,
    rc + Z.of_nat k <= max_retries ->
    (forall i, (i < k)%nat -> retried (http (requests_made w + i)) = true) ->
    classify (http (requests_made w + k)) = Succeeded data ->
    include_citations && (total_of data >? 0) = true ->
    citation_failure (http (requests_made w + S k)) = Some e ->
    out = (AtSuccess, (total_of data, 0%Q, Some (advisory e))).
Proof.
  induction 1 as [rc w Hgt | rc w Hle Hc Hlast | rc w out w' Hle Hc Hmore Hrun IH
                 | rc w e0 Hle Hc Hwhy | rc w e0 out w' Hle Hc Hmore Hs Hrun IH
                 | rc w data0 Hle Hc Hi | rc w data0 c m Hle Hc Hi Hs];
    intros k data e Hk Hretried Hsucc Hpos Hfail;
    try lia;
    (destruct k as [ | k];
     [ rewrite Nat.add_0_r in Hsucc; try congruence
     | assert (Hfirst := Hretried 0%nat (Nat.lt_0_succ k));
       rewrite Nat.add_0_r in Hfirst; unfold retried in Hfirst;
       rewrite Hc in Hfirst; try discriminate; try lia ]).
  - apply (IH k data e); cbn [after_sleep after_get requests_made];
      try assumption; try lia.
    + intros i Hi.
      replace (S (requests_made w) + i)%nat with (requests_made w + S i)%nat by lia.
      apply Hretried. lia.
    + now replace (S (requests_made w) + k)%nat
        with (requests_made w + S k)%nat by lia.
    + now replace (S (requests_made w) + S k)%nat
        with (requests_made w + S (S k))%nat by lia.
  - destruct Hwhy as [Hlast | Hno]; [lia | congruence].
  - apply (IH k data e); cbn [after_sleep after_get requests_made];
      try assumption; try lia.
    + intros i Hi.
      replace (S (requests_made w) + i)%nat with (requests_made w + S i)%nat by lia.
      apply Hretried. lia.
    + now replace (S (requests_made w) + k)%nat
        with (requests_made w + S k)%nat by lia.
    + now replace (S (requests_made w) + S k)%nat
        with (requests_made w + S (S k))%nat by lia.
  - rewrite Hsucc in Hc. inversion Hc; subst data0.
    rewrite (sample_citations_failure _ e) in Hs.
    + now inversion Hs.
    + cbn [after_get requests_made].
      now replace (S (requests_made w)) with (requests_made w + 1)%nat by lia.
Qed.

End Executor.

(** ** The sweep *)

Lemma delayed_calls_app good pairs1 delta1 pairs2 delta2 :
  delayed_calls good pairs1 delta1 ->
  delayed_calls good pairs2 delta2 ->
  delayed_calls good (pairs1 ++ pairs2) (delta1 ++ delta2).
Proof.
  induction 1 as [ | topic year pairs delay call rest Hd Hcall Hrest IH];
    intros H2; [exact H2 | ].
  cbn [app]. rewrite <- app_assoc. constructor; auto.
Qed.

Lemma delayed_calls_weaken (good good' : Q -> Prop) pairs delta :
  (forall d, good d -> good' d) ->
  delayed_calls good pairs delta -> delayed_calls good' pairs delta.
Proof. intros Himp. induction 1; constructor; auto. Qed.

Lemma uniform_bounds (a b u : Q) :
  (a <= b)%Q -> (0 <= u)%Q -> (u < 1)%Q ->
  (a <= a + (b - a) * u)%Q /\ (a + (b - a) * u <= b)%Q.
Proof. intros Hab H0 H1. split; nra. Qed.

Lemma length_range a b : length (range a b) = Z.to_nat (b - a).
Proof. unfold range. now rewrite length_map, length_seq. Qed.

Section Sweep.

Variable http : nat -> GetResult.
Variable rnd : nat -> Q.
Variable include_citations : bool.
Variable min_delay max_delay : Z.

Local Abbreviation body := (sweep_body http rnd include_citations min_delay max_delay).
Local Abbreviation good := (drawn_delay rnd min_delay max_delay).

(** One pass through the loop body: the delay, the call of the executor
    with the default [max_retries], one record appended. *)
Lemma sweep_body_runs topic year results errors w :
  exists site pub cit err w',
    loop_run http rnd topic year include_citations default_max_retries 0
      (after_delay rnd min_delay max_delay w) (site, (pub, cit, err)) w'
    /\ body topic year (results, errors) w
       = Some (((results
                 ++ [mkRecord topic year pub
                       (if include_citations then Some cit else None)])%list,
                if truthy err
                then (errors ++ [error_line topic year err])%list
                else errors), w').
Proof.
  destruct (search_semantic_scholar_at_runs http rnd topic year
              include_citations default_max_retries
              (after_delay rnd min_delay max_delay w))
    as ([site [[pub cit] err]] & w' & Hat & Hrun).
  exists site, pub, cit, err, w'. split; [exact Hrun | ].
  unfold sweep_body, bind, random_uniform, time_sleep, log.
  cbn [requests_made draws_made trace].
  fold (after_delay rnd min_delay max_delay w).
  now rewrite (search_semantic_scholar_of_at _ _ _ _ _ _ _ _ _ Hat).
Qed.

Lemma sweep_body_post topic year results errors w :
  exists r new_errors delta w',
    body topic year (results, errors) w
    = Some (((results ++ [r])%list, (errors ++ new_errors)%list), w')
    /\ key r = (topic, year)
    /\ citations_field include_citations r
    /\ trace w' = (trace w ++ delta)%list
    /\ delayed_calls good [(topic, year)] delta.
Proof.
  destruct (sweep_body_runs topic year results errors w)
    as (site & pub & cit & err & w' & Hrun & Hbody).
  destruct (loop_run_events _ _ _ _ _ _ _ _ _ _ Hrun) as (call & Htr & Hcall);
    [unfold default_max_retries; lia | ].
  exists (mkRecord topic year pub (if include_citations then Some cit else None)),
         (if truthy err then [error_line topic year err] else []),
         (EvSleep Courtesy
            (inject_Z min_delay
             + (inject_Z max_delay - inject_Z min_delay) * rnd (draws_made w))%Q
          :: EvGet (primary_params topic year) :: call ++ []), w'.
  split; [ | split; [ | split; [ | split]]].
  - rewrite Hbody. destruct (truthy err); [reflexivity | now rewrite app_nil_r].
  - reflexivity.
  - split; [split | ].
    + destruct include_citations; simpl; [reflexivity | congruence].
    + intros ->. discriminate.
    + intros Hic Hpub. cbn [Publications Average_Citations] in *. rewrite Hic.
      now rewrite (loop_run_no_publications _ _ _ _ _ _ _ _ _ _ _ _ _ Hrun Hpub).
  - rewrite Htr. cbn [after_delay trace]. rewrite app_nil_r, <- app_assoc.
    reflexivity.
  - constructor; [now exists (draws_made w) | assumption | constructor].
Qed.

(** The inner loop over the years of one topic. *)
Lemma years_loop_post topic : forall years results errors w,
  exists new_results new_errors delta w',
    for_each years (body topic) (results, errors) w
    = Some (((results ++ new_results)%list, (errors ++ new_errors)%list), w')
    /\ map key new_results = map (pair topic) years
    /\ Forall (citations_field include_citations) new_results
    /\ trace w' = (trace w ++ delta)%list
    /\ delayed_calls good (map (pair topic) years) delta.
Proof.
  induction years as [ | year years IH]; intros results errors w.
  - exists [], [], [], w. rewrite !app_nil_r.
    split; [reflexivity | split; [reflexivity | split; [constructor | split]]];
      [reflexivity | constructor].
  - destruct (sweep_body_post topic year results errors w)
      as (r & e1 & d1 & w1 & Hbody & Hkey & Hfield & Htr1 & Hd1).
    destruct (IH (results ++ [r])%list (errors ++ e1)%list w1)
      as (rs & e2 & d2 & w2 & Hloop & Hkeys & Hfields & Htr2 & Hd2).
    exists (r :: rs), (e1 ++ e2)%list, (d1 ++ d2)%list, w2.
    split; [ | split; [ | split; [ | split]]].
    + cbn [for_each]. unfold bind at 1. rewrite Hbody, Hloop.
      now rewrite <- !app_assoc.
    + cbn [map]. now rewrite Hkey, Hkeys.
    + now constructor.
    + rewrite Htr2, Htr1. now rewrite app_assoc.
    + apply (delayed_calls_app _ [(topic, year)]); assumption.
Qed.

(** The two nested loops. *)
Lemma sweep_loops_post years : forall topic_list results errors w,
  exists new_results new_errors delta w',
    sweep_loops http rnd topic_list years include_citations min_delay
      max_delay (results, errors) w
    = Some (((results ++ new_results)%list, (errors ++ new_errors)%list), w')
    /\ map key new_results = list_prod topic_list years
    /\ Forall (citations_field include_citations) new_results
    /\ trace w' = (trace w ++ delta)%list
    /\ delayed_calls good (list_prod topic_list years) delta.
Proof.
  unfold sweep_loops.
  induction topic_list as [ | topic topic_list IH]; intros results errors w.
  - exists [], [], [], w. rewrite !app_nil_r.
    split; [reflexivity | split; [reflexivity | split; [constructor | split]]];
      [reflexivity | constructor].
  - destruct (years_loop_post topic years results errors w)
      as (r1 & e1 & d1 & w1 & Hinner & Hkeys1 & Hfields1 & Htr1 & Hd1).
    destruct (IH (results ++ r1)%list (errors ++ e1)%list w1)
      as (r2 & e2 & d2 & w2 & Houter & Hkeys2 & Hfields2 & Htr2 & Hd2).
    exists (r1 ++ r2)%list, (e1 ++ e2)%list, (d1 ++ d2)%list, w2.
    split; [ | split; [ | split; [ | split]]].
    + cbn [for_each]. unfold bind at 1. rewrite Hinner, Houter.
      now rewrite <- !app_assoc.
    + cbn [list_prod]. now rewrite map_app, Hkeys1, Hkeys2.
    + apply Forall_app. now split.
    + rewrite Htr2, Htr1. now rewrite app_assoc.
    + cbn [list_prod]. now apply delayed_calls_app.
Qed.

End Sweep.

(** ** The executor: retries, backoff, return statements *)

Lemma rate_limit_response_classify g :
  rate_limit_response g -> classify g = RateLimited.
Proof.
  intros (r & -> & Hs). unfold classify. now rewrite Hs.
Qed.

(** C3: when every attempt for a pair is answered by a rate-limit
    response ([max_retries + 1] of them in a row), the executor returns
    publication count 0, citation count 0 and a non-empty error message,
    after at most [max_retries] backoff sleeps (none when [max_retries]
    is negative). *)
Theorem rate_limit_exhaustion (http : nat -> GetResult) (rnd : nat -> Q)
    (query : string) (year : Z) (include_citations : bool) (max_retries : Z)
    (w : World) :
  (forall i, (i <= Z.to_nat max_retries)%nat ->
             rate_limit_response (http (requests_made w + i)%nat)) ->
  exists msg delta w',
    search_semantic_scholar http rnd query year include_citations
      max_retries w = Some ((0, 0%Q, Some msg), w')
    /\ msg <> ""
    /\ trace w' = (trace w ++ delta)%list
    /\ (length (sleeps_of delta) <= Z.to_nat max_retries)%nat.
Proof.
  intros Hall.
  destruct (Z_lt_le_dec max_retries 0) as [Hneg | Hmr].
  - exists "Max retries exceeded", [], w.
    split; [ | split; [discriminate | split; [now rewrite app_nil_r | apply Nat.le_0_l]]].
    apply (search_semantic_scholar_of_at _ _ _ _ _ _ _
             (AtFallback, (0, 0%Q, Some "Max retries exceeded"))).
    unfold search_semantic_scholar_at. now apply search_loop_exit.
  - destruct (search_semantic_scholar_at_runs http rnd query year
                include_citations max_retries w) as (out & w' & Hat & Hrun).
    destruct (loop_run_rate_limited _ _ _ _ _ _ _ _ _ _ Hrun)
      as [Hout (delta & Htr & Hlen)]; [assumption | | ].
    { intros i Hi. apply rate_limit_response_classify, Hall.
      now rewrite Z.sub_0_r in Hi. }
    subst out.
    exists ("Rate limit exceeded after " ++ str max_retries ++ " retries"),
           delta, w'.
    split; [ | split; [ | split]].
    + now rewrite (search_semantic_scholar_of_at _ _ _ _ _ _ _ _ _ Hat).
    + discriminate.
    + exact Htr.
    + rewrite Hlen, Z.sub_0_r. apply Nat.le_refl.
Qed.

Lemma rate_limit_exhaustion_witness :
  (forall i, (i <= Z.to_nat 3)%nat ->
             rate_limit_response
               ((fun _ => too_many_requests) (requests_made world0 + i)%nat))
  /\ exists msg delta w',
       search_semantic_scholar (fun _ => too_many_requests) half "AI" 2020
         false 3 world0 = Some ((0, 0%Q, Some msg), w')
       /\ msg <> ""
       /\ trace w' = (trace world0 ++ delta)%list
       /\ (length (sleeps_of delta) <= Z.to_nat 3)%nat.
Proof.
  assert (H : forall i, (i <= Z.to_nat 3)%nat ->
                rate_limit_response
                  ((fun _ => too_many_requests) (requests_made world0 + i)%nat))
    by (intros i _; eexists; split; reflexivity).
  split; [exact H | ].
  exact (rate_limit_exhaustion (fun _ => too_many_requests) half "AI" 2020
           false 3 world0 H).
Defined.

(** C4, as the code has it: a [RequestException] is retried, after a sleep
    of [2^n] seconds plus jitter, only when its text contains "429" and
    fewer than [max_retries] retries have been made; any other one, also
    the first, is returned at once as the per-item error ["API Error: ..."]
    with no sleep, and so is one that arrives when the retries are used
    up. *)
Theorem request_exception_handling (http : nat -> GetResult)
    (rnd : nat -> Q) (query : string) (year : Z) (include_citations : bool)
    (max_retries : Z) (fuel : nat) (retry_count : Z) (w : World) (e : string) :
  retry_count <= max_retries ->
  classify (http (requests_made w)) = Failed e ->
  (str_in "429" e = false ->
   search_loop http rnd query year include_citations max_retries (S fuel)
     retry_count w
   = Some ((AtApiError, (0, 0%Q, Some ("API Error: " ++ e))),
           after_get (primary_params query year) w))
  /\ (str_in "429" e = true -> retry_count + 1 <= max_retries ->
      search_loop http rnd query year include_citations max_retries (S fuel)
        retry_count w
      = search_loop http rnd query year include_citations max_retries fuel
          (retry_count + 1)
          (after_sleep rnd ErrorBackoff (inject_Z (2 ^ (retry_count + 1))) 0 1
             (after_get (primary_params query year) w)))
  /\ (max_retries < retry_count + 1 ->
      search_loop http rnd query year include_citations max_retries (S fuel)
        retry_count w
      = Some ((AtApiError, (0, 0%Q, Some ("API Error: " ++ e))),
              after_get (primary_params query year) w)).
Proof.
  intros Hle Hc.
  rewrite search_loop_step by assumption. cbv zeta. rewrite Hc.
  split; [ | split].
  - intros ->. now rewrite orb_true_r.
  - intros -> Hmore.
    replace (retry_count + 1 >? max_retries) with false; [reflexivity | ].
    symmetry. rewrite Z.gtb_ltb. now apply Z.ltb_ge.
  - intros Hlast.
    replace (retry_count + 1 >? max_retries) with true; [reflexivity | ].
    symmetry. now apply Z.gtb_lt.
Qed.

Lemma request_exception_handling_witness :
  0 <= 3
  /\ classify ((fun _ => Raise "Connection refused") (requests_made world0))
     = Failed "Connection refused"
  /\ search_loop (fun _ => Raise "Connection refused") half "AI" 2020 false 3
       (search_fuel 3) 0 world0
     = Some ((AtApiError, (0, 0%Q, Some "API Error: Connection refused")),
             after_get (primary_params "AI" 2020) world0).
Proof.
  split; [lia | split; [reflexivity | ]].
  refine (proj1 (request_exception_handling
                   (fun _ => Raise "Connection refused") half
                   "AI" 2020 false 3 3 0 world0 "Connection refused" _ _) _);
    [lia | reflexivity | reflexivity].
Defined.

(** C4 as stated fails: with three retries left, a connection error on the
    first request is returned at once, after one request and no sleep. *)
Lemma request_exception_not_retried :
  search_semantic_scholar_at (fun _ => Raise "Connection refused") half
    "AI" 2020 false 3 world0
  = Some ((AtApiError, (0, 0%Q, Some "API Error: Connection refused")),
          mkWorld 1 0 [EvGet (primary_params "AI" 2020)])
  /\ sleeps_of [EvGet (primary_params "AI" 2020)] = [].
Proof. split; reflexivity. Qed.

Lemma half_in_unit_interval : forall i, (0 <= half i)%Q /\ (half i < 1)%Q.
Proof. intros i. unfold half. split; [discriminate | reflexivity]. Defined.

Lemma almost_one_in_unit_interval :
  forall i, (0 <= almost_one i)%Q /\ (almost_one i < 1)%Q.
Proof. intros i. unfold almost_one. split; [discriminate | reflexivity]. Defined.

(** C9, as the code has it: for [max_retries >= 0] the executor always
    returns, and never through the final ["Max retries exceeded"]
    statement. *)
Theorem fallback_unreachable (http : nat -> GetResult) (rnd : nat -> Q)
    (query : string) (year : Z) (include_citations : bool) (max_retries : Z)
    (w : World) :
  0 <= max_retries ->
  exists site result w',
    search_semantic_scholar_at http rnd query year include_citations
      max_retries w = Some ((site, result), w')
    /\ site <> AtFallback.
Proof.
  intros Hmr.
  destruct (search_semantic_scholar_at_runs http rnd query year
              include_citations max_retries w)
    as ([site result] & w' & Hat & Hrun).
  exists site, result, w'. split; [exact Hat | ].
  exact (loop_run_site _ _ _ _ _ _ _ _ _ _ Hrun Hmr).
Qed.

Lemma fallback_unreachable_witness :
  0 <= 3
  /\ exists site result w',
       search_semantic_scholar_at (fun _ => too_many_requests) half "AI" 2020
         false 3 world0 = Some ((site, result), w')
       /\ site <> AtFallback.
Proof.
  split; [lia | ].
  apply (fallback_unreachable (fun _ => too_many_requests) half "AI" 2020
           false 3 world0). lia.
Defined.

(** C9 as stated fails: with [max_retries = -1] the loop condition is
    false at once and the executor returns through the final statement,
    without a request. *)
Lemma fallback_reached :
  search_semantic_scholar_at (fun _ => ok_reply 150) half "AI" 2020 false
    (-1) world0
  = Some ((AtFallback, (0, 0%Q, Some "Max retries exceeded")), world0).
Proof. reflexivity. Qed.

(** ** The sweep: records, errors, delays *)

(** The handler, once the year range is accepted, is the two loops from
    the empty lists. *)
Lemma api_search_swept (http : nat -> GetResult) (rnd : nat -> Q)
    (topic_list : list string) (start_year end_year : Z)
    (include_citations : bool) (min_delay max_delay : Z) (w : World)
    results errors w' :
  start_year <= end_year ->
  sweep_loops http rnd topic_list (range start_year (end_year + 1))
    include_citations min_delay max_delay ([], []) w
  = Some ((results, errors), w') ->
  api_search http rnd topic_list start_year end_year include_citations
    min_delay max_delay w = Some (Swept results errors, w').
Proof.
  intros Hle Hloops. unfold api_search.
  replace (start_year >? end_year) with false
    by (symmetry; rewrite Z.gtb_ltb; now apply Z.ltb_ge).
  unfold bind. now rewrite Hloops.
Qed.

Lemma api_search_rejected (http : nat -> GetResult)
    (rnd : nat -> Q) (topic_list : list string) (start_year end_year : Z)
    (include_citations : bool) (min_delay max_delay : Z) (w : World) :
  start_year > end_year ->
  exists message,
    api_search http rnd topic_list start_year end_year include_citations
      min_delay max_delay w = Some (Rejected message, w).
Proof.
  intros Hgt. unfold api_search.
  replace (start_year >? end_year) with true
    by (symmetry; apply Z.gtb_lt; lia).
  now eexists.
Qed.

(** C1: for a valid year range the sweep produces exactly one record per
    (topic, year) pair, in loop order, whatever the replies are, so
    [len(topics) * (end_year - start_year + 1)] records; and the loops only
    append: from any lists [results] and [errors] they leave both as
    prefixes of the lists they return.  (The count holds for an empty
    topic list as well.) *)
Theorem sweep_one_record_per_pair (http : nat -> GetResult) (rnd : nat -> Q)
    (topic_list : list string) (start_year end_year : Z)
    (include_citations : bool) (min_delay max_delay : Z) (w : World) :
  start_year <= end_year ->
  (exists results errors w',
     api_search http rnd topic_list start_year end_year include_citations
       min_delay max_delay w = Some (Swept results errors, w')
     /\ map key results
        = list_prod topic_list (range start_year (end_year + 1))
     /\ Z.of_nat (length results)
        = Z.of_nat (length topic_list) * (end_year - start_year + 1))
  /\ (forall results0 errors0 w0,
        exists new_results new_errors w1,
          sweep_loops http rnd topic_list (range start_year (end_year + 1))
            include_citations min_delay max_delay (results0, errors0) w0
          = Some (((results0 ++ new_results)%list,
                   (errors0 ++ new_errors)%list), w1)
          /\ map key new_results
             = list_prod topic_list (range start_year (end_year + 1))).
Proof.
  intros Hle. split.
  - destruct (sweep_loops_post http rnd include_citations min_delay max_delay
                (range start_year (end_year + 1)) topic_list [] [] w)
      as (results & errors & delta & w' & Hloops & Hkeys & _).
    exists results, errors, w'. split; [ | split].
    + now apply api_search_swept.
    + exact Hkeys.
    + rewrite <- (length_map key), Hkeys, length_prod, length_range. lia.
  - intros results0 errors0 w0.
    destruct (sweep_loops_post http rnd include_citations min_delay max_delay
                (range start_year (end_year + 1)) topic_list results0 errors0 w0)
      as (results & errors & delta & w' & Hloops & Hkeys & _).
    now exists results, errors, w'.
Qed.

Lemma sweep_one_record_per_pair_witness :
  2020 <= 2021
  /\ exists results errors w',
       api_search (first_then (ok_reply 150) (ok_reply 0))
         half ["AI"] 2020 2021 false 2 5 world0
       = Some (Swept results errors, w')
       /\ map key results = list_prod ["AI"] (range 2020 (2021 + 1))
       /\ Z.of_nat (length results)
          = Z.of_nat (length ["AI"]) * (2021 - 2020 + 1).
Proof.
  split; [lia | ].
  refine (proj1 (sweep_one_record_per_pair
                   (first_then (ok_reply 150) (ok_reply 0))
                   half ["AI"] 2020 2021 false 2 5 world0 _)).
  lia.
Defined.

(** C2: a year range with [start_year > end_year] is rejected before
    anything is done: the world is left as it was (no request, no sleep)
    and there are no records and no per-item errors. *)
Theorem inverted_year_range_rejected (http : nat -> GetResult)
    (rnd : nat -> Q) (topic_list : list string) (start_year end_year : Z)
    (include_citations : bool) (min_delay max_delay : Z) (w : World) :
  start_year > end_year ->
  exists message,
    api_search http rnd topic_list start_year end_year include_citations
      min_delay max_delay w = Some (Rejected message, w)
    /\ results_of (Rejected message) = []
    /\ errors_of (Rejected message) = [].
Proof.
  intros Hgt. unfold api_search.
  replace (start_year >? end_year) with true
    by (symmetry; apply Z.gtb_lt; lia).
  eexists. repeat split.
Qed.

Lemma inverted_year_range_rejected_witness :
  2022 > 2020
  /\ exists message,
       api_search (fun _ => ok_reply 150) half ["AI"] 2022 2020 true 2 5 world0
       = Some (Rejected message, world0)
       /\ results_of (Rejected message) = []
       /\ errors_of (Rejected message) = [].
Proof.
  split; [lia | ].
  apply (inverted_year_range_rejected (fun _ => ok_reply 150) half ["AI"]
           2022 2020 true 2 5 world0).
  lia.
Defined.

(** C6: with citation inclusion on, when the count request of a pair
    succeeds with a positive total (at once or after retried attempts) and
    the citation request fails, the loop body appends the record with that
    total and the citation average 0, appends exactly one advisory line for
    the pair to the errors, and the loop over the remaining years goes on
    from there. *)
Theorem citation_failure_is_advisory (http : nat -> GetResult)
    (rnd : nat -> Q) (min_delay max_delay : Z) (topic : string) (year : Z)
    (results : list ResultRecord) (errors : list string) (w : World)
    (k : nat) (data : Json) (e : string) :
  (k <= 3)%nat ->
  (forall i, (i < k)%nat -> retried (http (requests_made w + i)%nat) = true) ->
  classify (http (requests_made w + k)%nat) = Succeeded data ->
  0 < total_of data ->
  citation_failure (http (requests_made w + S k)%nat) = Some e ->
  let record := mkRecord topic year (total_of data) (Some 0%Q) in
  let line := error_line topic year (Some (advisory e)) in
  (exists w',
     sweep_body http rnd true min_delay max_delay topic year
       (results, errors) w
     = Some (((results ++ [record])%list, (errors ++ [line])%list), w'))
  /\ (forall years,
        exists more_results more_errors w'',
          for_each (year :: years)
            (sweep_body http rnd true min_delay max_delay topic)
            (results, errors) w
          = Some (((results ++ record :: more_results)%list,
                   (errors ++ line :: more_errors)%list), w'')).
Proof.
  intros Hk Hretried Hsucc Hpos Hfail record line.
  destruct (sweep_body_runs http rnd true min_delay max_delay topic year
              results errors w)
    as (site & pub & cit & err & w' & Hrun & Hbody).
  assert (Hout : (site, (pub, cit, err))
                 = (AtSuccess, (total_of data, 0%Q, Some (advisory e)))).
  { apply (loop_run_advisory _ _ _ _ _ _ _ _ _ _ Hrun k data e);
      cbn [after_delay requests_made]; try assumption.
    - unfold default_max_retries. lia.
    - cbn [andb]. now apply Z.gtb_lt. }
  inversion Hout; subst site pub cit err.
  change (truthy (Some (advisory e))) with true in Hbody.
  cbv iota in Hbody.
  split.
  - now exists w'.
  - intros years.
    destruct (years_loop_post http rnd true min_delay max_delay topic years
                (results ++ [record])%list (errors ++ [line])%list w')
      as (rs & es & delta & w'' & Hloop & _).
    exists rs, es, w''. cbn [for_each]. unfold bind at 1.
    rewrite Hbody. fold record line. rewrite Hloop.
    now rewrite <- !app_assoc.
Qed.

Lemma citation_failure_is_advisory_witness :
  (0 <= 3)%nat
  /\ (forall i, (i < 0)%nat ->
        retried (first_then (ok_reply 150) server_error
                   (requests_made world0 + i)%nat) = true)
  /\ classify (first_then (ok_reply 150) server_error
                 (requests_made world0 + 0)%nat)
     = Succeeded (mkJson (Some 150) None)
  /\ 0 < total_of (mkJson (Some 150) None)
  /\ exists e w',
       citation_failure (first_then (ok_reply 150) server_error
                           (requests_made world0 + 1)%nat) = Some e
       /\ sweep_body (first_then (ok_reply 150) server_error) half true 2 5
            "AI" 2020 ([], []) world0
          = Some (([mkRecord "AI" 2020 150 (Some 0%Q)],
                   [error_line "AI" 2020 (Some (advisory e))]), w').
Proof.
  assert (H0 : forall i, (i < 0)%nat ->
                 retried (first_then (ok_reply 150) server_error
                            (requests_made world0 + i)%nat) = true)
    by (intros i Hi; inversion Hi).
  split; [apply Nat.le_0_l | split; [exact H0 | split; [reflexivity | split; [reflexivity | ]]]].
  destruct (proj1 (citation_failure_is_advisory
                     (first_then (ok_reply 150) server_error) half 2 5
                     "AI" 2020 [] [] world0 0 (mkJson (Some 150) None)
                     (str 500 ++ " Server Error: Internal Server Error for url: "
                      ++ base_url)
                     (Nat.le_0_l 3) H0 eq_refl eq_refl eq_refl)) as [w' Hw].
  eexists _, w'. split; [reflexivity | exact Hw].
Defined.

(** C7, as the code has it: every record of a sweep has the
    ["Average Citations"] key exactly when citation inclusion was
    requested, whatever its publication count; with citation inclusion on,
    a record without publications has the key with value 0. *)
Theorem average_citations_presence (http : nat -> GetResult) (rnd : nat -> Q)
    (topic_list : list string) (start_year end_year : Z)
    (include_citations : bool) (min_delay max_delay : Z) (w : World) :
  exists outcome w',
    api_search http rnd topic_list start_year end_year include_citations
      min_delay max_delay w = Some (outcome, w')
    /\ Forall (citations_field include_citations) (results_of outcome).
Proof.
  destruct (Z_lt_le_dec end_year start_year) as [Hgt | Hle].
  - destruct (api_search_rejected http rnd topic_list start_year
                end_year include_citations min_delay max_delay w)
      as (message & Hrej); [lia | ].
    exists (Rejected message), w. split; [exact Hrej | constructor].
  - destruct (sweep_loops_post http rnd include_citations min_delay max_delay
                (range start_year (end_year + 1)) topic_list [] [] w)
      as (results & errors & delta & w' & Hloops & _ & Hfields & _).
    exists (Swept results errors), w'. split; [ | exact Hfields].
    now apply api_search_swept.
Qed.

(** C7 as stated fails: with citation inclusion on and a count of 0 the
    record still has the ["Average Citations"] key, with value 0. *)
Lemma average_citations_present_without_publications :
  exists record errors w',
    api_search (fun _ => ok_reply 0) half ["AI"] 2020 2020 true 2 5 world0
    = Some (Swept [record] errors, w')
    /\ Publications record = 0
    /\ Average_Citations record = Some 0%Q.
Proof.
  exists (mkRecord "AI" 2020 0 (Some 0%Q)), [].
  eexists. split; [vm_compute; reflexivity | split; reflexivity].
Qed.

(** C8: the trace of a sweep is one call of the executor per (topic,
    year) pair, in loop order, and each call, the first included, comes
    right after a courtesy sleep whose length lies between [min_delay] and
    [max_delay]; no call starts without it. *)
Theorem courtesy_delay_before_every_call (http : nat -> GetResult)
    (rnd : nat -> Q) (topic_list : list string) (start_year end_year : Z)
    (include_citations : bool) (min_delay max_delay : Z) (w : World) :
  min_delay <= max_delay ->
  (forall i, (0 <= rnd i)%Q /\ (rnd i < 1)%Q) ->
  exists outcome delta w',
    api_search http rnd topic_list start_year end_year include_citations
      min_delay max_delay w = Some (outcome, w')
    /\ trace w' = (trace w ++ delta)%list
    /\ delayed_calls
         (fun d => (inject_Z min_delay <= d)%Q /\ (d <= inject_Z max_delay)%Q)
         (list_prod topic_list (range start_year (end_year + 1))) delta.
Proof.
  intros Hdelay Hrnd.
  destruct (Z_lt_le_dec end_year start_year) as [Hgt | Hle].
  - destruct (api_search_rejected http rnd topic_list start_year
                end_year include_citations min_delay max_delay w)
      as (message & Hrej); [lia | ].
    exists (Rejected message), [], w.
    split; [exact Hrej | split; [now rewrite app_nil_r | ]].
    unfold range. replace (Z.to_nat (end_year + 1 - start_year)) with 0%nat by lia.
    cbn [seq map].
    replace (list_prod topic_list []) with (@nil (string * Z));
      [constructor | ].
    clear. induction topic_list; [reflexivity | assumption].
  - destruct (sweep_loops_post http rnd include_citations min_delay max_delay
                (range start_year (end_year + 1)) topic_list [] [] w)
      as (results & errors & delta & w' & Hloops & _ & _ & Htr & Hcalls).
    exists (Swept results errors), delta, w'.
    split; [now apply api_search_swept | split; [exact Htr | ]].
    apply (delayed_calls_weaken (drawn_delay rnd min_delay max_delay));
      [ | exact Hcalls].
    intros d (i & ->). destruct (Hrnd i) as [H0 H1].
    apply uniform_bounds; try assumption.
    rewrite <- Zle_Qle. exact Hdelay.
Qed.

Lemma courtesy_delay_before_every_call_witness :
  2 <= 5
  /\ (forall i, (0 <= half i)%Q /\ (half i < 1)%Q)
  /\ exists outcome delta w',
       api_search (first_then (ok_reply 150) (ok_reply 0)) half ["AI"]
         2020 2021 false 2 5 world0 = Some (outcome, w')
       /\ trace w' = (trace world0 ++ delta)%list
       /\ delayed_calls
            (fun d => (inject_Z 2 <= d)%Q /\ (d <= inject_Z 5)%Q)
            (list_prod ["AI"] (range 2020 (2021 + 1))) delta.
Proof.
  assert (H : 2 <= 5) by lia.
  split; [exact H | split; [exact half_in_unit_interval | ]].
  exact (courtesy_delay_before_every_call
           (first_then (ok_reply 150) (ok_reply 0)) half ["AI"] 2020 2021
           false 2 5 world0 H half_in_unit_interval).
Defined.

(** ** create_plot *)

Lemma existsb_eqb_In (x : string) (names : list string) :
  In x names -> existsb (String.eqb x) names = true.
Proof.
  intros H. apply existsb_exists. exists x. split; [exact H | apply String.eqb_refl].
Qed.

Lemma px_check_columns df x y color :
  In x (columns df) -> In y (columns df) -> In color (columns df) ->
  px_check df x y color = None.
Proof.
  intros Hx Hy Hc. unfold px_check.
  now rewrite !existsb_eqb_In by assumption.
Qed.

Lemma column_of_columns df x :
  In x (columns df) -> exists cells, column df x = Some cells.
Proof.
  induction df as [ | [name cells] df IH]; simpl; [tauto | ].
  intros [-> | H].
  - rewrite String.eqb_refl. eauto.
  - destruct (String.eqb name x); eauto.
Qed.

Lemma create_plot_fig_bound df plot_type x y color title labels :
  In plot_type plot_types ->
  exists kind markers barmode,
    create_plot_fig df plot_type x y color title labels
    = Some (px_chart kind markers barmode df x y color title labels).
Proof.
  intros [<- | [<- | [<- | []]]]; do 3 eexists; reflexivity.
Qed.

Lemma create_plot_fig_unbound df plot_type x y color title labels :
  ~ In plot_type plot_types ->
  create_plot_fig df plot_type x y color title labels = None.
Proof.
  intros H. unfold create_plot_fig.
  destruct (String.eqb_spec plot_type "Line Plot") as [-> | _];
    [exfalso; apply H; simpl; tauto | ].
  destruct (String.eqb_spec plot_type "Bar Plot") as [-> | _];
    [exfalso; apply H; simpl; tauto | ].
  destruct (String.eqb_spec plot_type "Area Plot") as [-> | _];
    [exfalso; apply H; simpl; tauto | reflexivity].
Qed.

(** C10, as the code has it: for a plot type other than "Line Plot",
    "Bar Plot" and "Area Plot" no branch binds [fig] and [create_plot]
    raises the unbound-local error; for the three listed types [fig] is
    always bound, and a figure is returned whenever the frame has the
    columns named by [x], [y] and [color]. *)
Theorem create_plot_plot_types (df : DataFrame)
    (plot_type x y color title : string) (labels : list (string * string)) :
  (~ In plot_type plot_types ->
   create_plot df plot_type x y color title labels
   = Raised (UnboundLocalError "fig"))
  /\ (In plot_type plot_types ->
      create_plot df plot_type x y color title labels
      <> Raised (UnboundLocalError "fig"))
  /\ (In plot_type plot_types ->
      In x (columns df) -> In y (columns df) -> In color (columns df) ->
      exists fig,
        create_plot df plot_type x y color title labels = Returns fig).
Proof.
  split; [ | split].
  - intros H. unfold create_plot.
    now rewrite create_plot_fig_unbound.
  - intros H.
    destruct (create_plot_fig_bound df plot_type x y color title labels H)
      as (kind & markers & barmode & Hfig).
    unfold create_plot. rewrite Hfig. unfold px_chart, px_check.
    destruct (negb (existsb (String.eqb x) (columns df))); [discriminate | ].
    destruct (negb (existsb (String.eqb y) (columns df))); [discriminate | ].
    destruct (negb (existsb (String.eqb color) (columns df))); [discriminate | ].
    destruct (column df x); discriminate.
  - intros H Hx Hy Hc.
    destruct (create_plot_fig_bound df plot_type x y color title labels H)
      as (kind & markers & barmode & Hfig).
    destruct (column_of_columns df x Hx) as [cells Hcol].
    unfold create_plot. rewrite Hfig. unfold px_chart.
    rewrite px_check_columns by assumption. rewrite Hcol. eauto.
Qed.

Lemma create_plot_plot_types_witness :
  In "Bar Plot" plot_types
  /\ In "Year" (columns sample_frame)
  /\ In "Publications" (columns sample_frame)
  /\ In "Topic" (columns sample_frame)
  /\ exists fig,
       create_plot sample_frame "Bar Plot" "Year" "Publications" "Topic"
         "Publication Trends Over Time" [] = Returns fig.
Proof.
  assert (Ht : In "Bar Plot" plot_types) by (simpl; tauto).
  assert (Hx : In "Year" (columns sample_frame)) by (simpl; tauto).
  assert (Hy : In "Publications" (columns sample_frame)) by (simpl; tauto).
  assert (Hc : In "Topic" (columns sample_frame)) by (simpl; tauto).
  split; [exact Ht | split; [exact Hx | split; [exact Hy | split; [exact Hc | ]]]].
  exact (proj2 (proj2 (create_plot_plot_types sample_frame "Bar Plot" "Year"
                         "Publications" "Topic"
                         "Publication Trends Over Time" []))
           Ht Hx Hy Hc).
Defined.

(** C10 as stated fails: on the frame without columns, which is what an
    empty result list gives, "Line Plot" is a listed plot type and yet no
    figure is returned. *)
Lemma create_plot_raises_on_listed_type :
  In "Line Plot" plot_types
  /\ create_plot [] "Line Plot" "Year" "Publications" "Topic"
       "Publication Trends Over Time" []
     = Raised (ValueError "x").
Proof. split; [simpl; tauto | reflexivity]. Qed.

(** ** More on the executor: requests, sleeping time, kinds of result *)

Lemma requests_of_app tr1 tr2 :
  requests_of (tr1 ++ tr2) = (requests_of tr1 ++ requests_of tr2)%list.
Proof.
  induction tr1 as [ | [p | k t] tr1 IH]; simpl; [reflexivity | | assumption].
  now rewrite IH.
Qed.

Lemma time_asleep_app tr1 tr2 :
  (time_asleep (tr1 ++ tr2) == time_asleep tr1 + time_asleep tr2)%Q.
Proof.
  induction tr1 as [ | [p | k t] tr1 IH]; simpl; [ring | assumption | ].
  rewrite IH. ring.
Qed.

Lemma time_asleep_nonneg tr :
  Forall (fun s => (0 <= snd s)%Q) (sleeps_of tr) -> (0 <= time_asleep tr)%Q.
Proof.
  induction tr as [ | [p | k t] tr IH]; simpl; intros H.
  - apply Qle_refl.
  - now apply IH.
  - inversion H; subst. cbn [snd] in *.
    assert (0 <= time_asleep tr)%Q by now apply IH. lra.
Qed.

Lemma pow3_step (n : Z) :
  0 <= n -> (inject_Z (3 ^ (n + 1)) == 3 * inject_Z (3 ^ n))%Q.
Proof.
  intros Hn. change (n + 1) with (Z.succ n).
  rewrite Z.pow_succ_r by assumption.
  now rewrite inject_Z_mult.
Qed.

Lemma pow2_le_pow3 (n : Z) : (inject_Z (2 ^ n) <= inject_Z (3 ^ n))%Q.
Proof. rewrite <- Zle_Qle. apply Z.pow_le_mono_l. lia. Qed.

Section ExecutorMore.

Variable http : nat -> GetResult.
Variable rnd : nat -> Q.
Variable query : string.
Variable year : Z.
Variable include_citations : bool.
Variable max_retries : Z.

Local Abbreviation loop_run :=
  (loop_run http rnd query year include_citations max_retries).

Lemma sample_citations_kind w citation_count error_msg w' :
  sample_citations http query year w = Some ((citation_count, error_msg), w') ->
  error_msg = None
  \/ (citation_count = 0%Q /\ exists e, error_msg = Some (advisory e)).
Proof.
  unfold sample_citations, bind, requests_get, ret; cbn.
  destruct (http (requests_made w)) as [e | r].
  - intros H; inversion H; subst. right. eauto.
  - destruct (raise_for_status r) as [e | ].
    + intros H; inversion H; subst. right. eauto.
    + destruct (js_data (body r)) as [[ | p papers] | ];
        intros H; inversion H; now left.
Qed.

(** Every run ends in one of the three kinds of result, and outside the
    success statement in a failure. *)
Lemma loop_run_kind rc w out w' :
  loop_run rc w out w' ->
  ResultKind (snd out)
  /\ (fst out <> AtSuccess ->
      exists msg, snd out = (0, 0%Q, Some msg) /\ msg <> "")
  /\ (include_citations = false -> snd (fst (snd out)) = 0%Q).
Proof.
  induction 1 as [rc w Hgt | rc w Hle Hc Hlast | rc w out w' Hle Hc Hmore Hrun IH
                 | rc w e Hle Hc Hwhy | rc w e out w' Hle Hc Hmore Hs Hrun IH
                 | rc w data Hle Hc Hi | rc w data c m Hle Hc Hi Hs];
    try exact IH; cbn [fst snd].
  - split; [constructor; discriminate | split; [ | reflexivity]].
    intros _. eexists. split; [reflexivity | discriminate].
  - split; [constructor; discriminate | split; [ | reflexivity]].
    intros _. eexists. split; [reflexivity | discriminate].
  - split; [constructor; discriminate | split; [ | reflexivity]].
    intros _. eexists. split; [reflexivity | discriminate].
  - split; [constructor | split; [congruence | reflexivity]].
  - apply andb_prop in Hi as [Hic Hpos]. apply Z.gtb_lt in Hpos.
    split; [ | split; [congruence | intros Hno; congruence]].
    destruct (sample_citations_kind _ _ _ _ Hs) as [-> | [-> [e ->]]];
      [constructor | now constructor].
Qed.

(** What a run adds to the trace: after each backoff sleep comes a new
    request, one more request may sample the citations, and the world
    counts both. *)
Lemma loop_run_counts rc w out w' :
  loop_run rc w out w' ->
  exists delta,
    trace w' = (trace w ++ delta)%list
    /\ (length (sleeps_of delta) <= Z.to_nat (max_retries - rc))%nat
    /\ (rc <= max_retries ->
        (length (sleeps_of delta) + 1 <= length (requests_of delta))%nat)
    /\ (length (requests_of delta) <= length (sleeps_of delta) + 2)%nat
    /\ (include_citations = false ->
        (length (requests_of delta) <= length (sleeps_of delta) + 1)%nat
        /\ Forall (eq (primary_params query year)) (requests_of delta))
    /\ backoffs_of delta = sleeps_of delta
    /\ requests_made w' = (requests_made w + length (requests_of delta))%nat
    /\ draws_made w' = (draws_made w + length (sleeps_of delta))%nat.
Proof.
  induction 1 as [rc w Hgt | rc w Hle Hc Hlast | rc w out w' Hle Hc Hmore Hrun IH
                 | rc w e Hle Hc Hwhy | rc w e out w' Hle Hc Hmore Hs Hrun IH
                 | rc w data Hle Hc Hi | rc w data c m Hle Hc Hi Hs].
  - exists []. rewrite app_nil_r.
    repeat match goal with |- _ /\ _ => split end;
      cbn; intros; try reflexivity; try lia; split; [lia | constructor].
  - exists [EvGet (primary_params query year)].
    repeat match goal with |- _ /\ _ => split end;
      cbn; intros; try reflexivity; try lia; split; [lia | repeat constructor].
  - destruct IH as (delta & Htr & Hsl & Hlo & Hhi & Hno & Hback & Hreq & Hdraw).
    cbn [after_sleep after_get requests_made draws_made trace] in Htr, Hreq, Hdraw.
    eexists (_ :: _ :: delta).
    split; [rewrite Htr, <- !app_assoc; reflexivity | ].
    unfold backoffs_of in *.
    repeat match goal with |- _ /\ _ => split end;
      cbn; intros; try rewrite Hback; try reflexivity; try lia.
    match goal with H : include_citations = false |- _ =>
      apply Hno in H as [Hn Hall] end.
    split; [lia | now constructor].
  - exists [EvGet (primary_params query year)].
    repeat match goal with |- _ /\ _ => split end;
      cbn; intros; try reflexivity; try lia; split; [lia | repeat constructor].
  - destruct IH as (delta & Htr & Hsl & Hlo & Hhi & Hno & Hback & Hreq & Hdraw).
    cbn [after_sleep after_get requests_made draws_made trace] in Htr, Hreq, Hdraw.
    eexists (_ :: _ :: delta).
    split; [rewrite Htr, <- !app_assoc; reflexivity | ].
    unfold backoffs_of in *.
    repeat match goal with |- _ /\ _ => split end;
      cbn; intros; try rewrite Hback; try reflexivity; try lia.
    match goal with H : include_citations = false |- _ =>
      apply Hno in H as [Hn Hall] end.
    split; [lia | now constructor].
  - exists [EvGet (primary_params query year)].
    repeat match goal with |- _ /\ _ => split end;
      cbn; intros; try reflexivity; try lia; split; [lia | repeat constructor].
  - exists [EvGet (primary_params query year); EvGet (citation_params query year)].
    repeat match goal with |- _ /\ _ => split end;
      cbn; intros; try reflexivity; try lia.
    + rewrite <- app_assoc. reflexivity.
    + rewrite H in Hi. discriminate.
Qed.

(** The time a run spends in backoff sleeps. *)
Lemma loop_run_time rc w out w' :
  (forall i, (0 <= rnd i)%Q /\ (rnd i < 1)%Q) ->
  loop_run rc w out w' ->
  0 <= rc ->
  exists delta,
    trace w' = (trace w ++ delta)%list
    /\ (0 <= time_asleep delta)%Q
    /\ (rc <= max_retries ->
        (2 * time_asleep delta + inject_Z (3 ^ (rc + 1)) + 2 * inject_Z rc
         <= inject_Z (3 ^ (max_retries + 1)) + 2 * inject_Z max_retries)%Q).
Proof.
  intros Hrnd.
  assert (Hbase : forall rc, 0 <= rc -> rc <= max_retries ->
            (2 * 0 + inject_Z (3 ^ (rc + 1)) + 2 * inject_Z rc
             <= inject_Z (3 ^ (max_retries + 1)) + 2 * inject_Z max_retries)%Q).
  { intros r H0 Hle.
    assert (H3 : (inject_Z (3 ^ (r + 1)) <= inject_Z (3 ^ (max_retries + 1)))%Q)
      by (rewrite <- Zle_Qle; apply Z.pow_le_mono_r; lia).
    assert (Hr : (inject_Z r <= inject_Z max_retries)%Q)
      by (now rewrite <- Zle_Qle).
    lra. }
  induction 1 as [rc w Hgt | rc w Hle Hc Hlast | rc w out w' Hle Hc Hmore Hrun IH
                 | rc w e Hle Hc Hwhy | rc w e out w' Hle Hc Hmore Hs Hrun IH
                 | rc w data Hle Hc Hi | rc w data c m Hle Hc Hi Hs];
    intros Hrc.
  - exists []. rewrite app_nil_r. cbn. split; [reflexivity | ].
    split; [apply Qle_refl | intros; lia].
  - exists [EvGet (primary_params query year)]. cbn.
    split; [reflexivity | split; [apply Qle_refl | intros _; now apply Hbase]].
  - destruct IH as (delta & Htr & Hpos & Hbound); [lia | ].
    eexists (_ :: _ :: delta). split.
    { rewrite Htr. cbn [after_sleep after_get trace].
      rewrite <- !app_assoc. reflexivity. }
    cbn [time_asleep draws_made after_get].
    destruct (Hrnd (draws_made w)) as [H0 H1].
    destruct (jitter_bounds (inject_Z (3 ^ (rc + 1))) _ H0 H1) as [Hlo Hhi].
    assert (Hp : (0 <= inject_Z (3 ^ (rc + 1)))%Q)
      by (change 0%Q with (inject_Z 0); rewrite <- Zle_Qle;
          apply Z.pow_nonneg; lia).
    split; [lra | ].
    intros _. specialize (Hbound Hmore).
    assert (H3 := pow3_step (rc + 1) ltac:(lia)).
    rewrite inject_Z_plus in Hbound. change (inject_Z 1) with 1%Q in Hbound.
    lra.
  - exists [EvGet (primary_params query year)]. cbn.
    split; [reflexivity | split; [apply Qle_refl | intros _; now apply Hbase]].
  - destruct IH as (delta & Htr & Hpos & Hbound); [lia | ].
    eexists (_ :: _ :: delta). split.
    { rewrite Htr. cbn [after_sleep after_get trace].
      rewrite <- !app_assoc. reflexivity. }
    cbn [time_asleep draws_made after_get].
    destruct (Hrnd (draws_made w)) as [H0 H1].
    destruct (jitter_bounds (inject_Z (2 ^ (rc + 1))) _ H0 H1) as [Hlo Hhi].
    assert (Hp : (0 <= inject_Z (2 ^ (rc + 1)))%Q)
      by (change 0%Q with (inject_Z 0); rewrite <- Zle_Qle;
          apply Z.pow_nonneg; lia).
    assert (H23 := pow2_le_pow3 (rc + 1)).
    split; [lra | ].
    intros _. specialize (Hbound Hmore).
    assert (H3 := pow3_step (rc + 1) ltac:(lia)).
    rewrite inject_Z_plus in Hbound. change (inject_Z 1) with 1%Q in Hbound.
    lra.
  - exists [EvGet (primary_params query year)]. cbn.
    split; [reflexivity | split; [apply Qle_refl | intros _; now apply Hbase]].
  - eexists [_; _]. split.
    { cbn [after_get trace]. rewrite <- app_assoc. reflexivity. }
    cbn. split; [apply Qle_refl | intros _; now apply Hbase].
Qed.

End ExecutorMore.

(** ** More on the sweep: a sequence of passes *)

Lemma passes_app Step pairs1 rs1 es1 ds1 pairs2 rs2 es2 ds2 :
  passes Step pairs1 rs1 es1 ds1 ->
  passes Step pairs2 rs2 es2 ds2 ->
  passes Step (pairs1 ++ pairs2) (rs1 ++ rs2) (es1 ++ es2) (ds1 ++ ds2).
Proof.
  induction 1 as [ | topic year pairs r es d rs ess ds Hstep Hrest IH];
    intros H2; [exact H2 | ].
  cbn [app]. rewrite <- !app_assoc. constructor; auto.
Qed.

Lemma truthy_nonempty (m : string) : m <> "" -> truthy (Some m) = true.
Proof. destruct m; [congruence | reflexivity]. Qed.

Lemma backoffs_of_app tr1 tr2 :
  backoffs_of (tr1 ++ tr2) = (backoffs_of tr1 ++ backoffs_of tr2)%list.
Proof. unfold backoffs_of. now rewrite sleeps_of_app, filter_app. Qed.

Section SweepMore.

Variable http : nat -> GetResult.
Variable rnd : nat -> Q.
Variable include_citations : bool.
Variable min_delay max_delay : Z.

Local Abbreviation body :=
  (sweep_body http rnd include_citations min_delay max_delay).

Variable Step :
  string -> Z -> ResultRecord -> list string -> list Event -> Prop.

Hypothesis body_step : forall topic year results errors w,
  exists r es d w',
    body topic year (results, errors) w
    = Some (((results ++ [r])%list, (errors ++ es)%list), w')
    /\ trace w' = (trace w ++ d)%list
    /\ Step topic year r es d.

Lemma years_loop_passes topic : forall years results errors w,
  exists rs ess ds w',
    for_each years (body topic) (results, errors) w
    = Some (((results ++ rs)%list, (errors ++ ess)%list), w')
    /\ trace w' = (trace w ++ ds)%list
    /\ passes Step (map (pair topic) years) rs ess ds.
Proof.
  induction years as [ | year years IH]; intros results errors w.
  - exists [], [], [], w. rewrite !app_nil_r.
    split; [reflexivity | split; [reflexivity | constructor]].
  - destruct (body_step topic year results errors w)
      as (r & es & d & w1 & Hbody & Htr1 & Hstep).
    destruct (IH (results ++ [r])%list (errors ++ es)%list w1)
      as (rs & ess & ds & w2 & Hloop & Htr2 & Hrest).
    exists (r :: rs), (es ++ ess)%list, (d ++ ds)%list, w2.
    split; [ | split].
    + cbn [for_each]. unfold bind at 1. rewrite Hbody, Hloop.
      now rewrite <- !app_assoc.
    + rewrite Htr2, Htr1. now rewrite app_assoc.
    + cbn [map]. now constructor.
Qed.

Lemma sweep_loops_passes years : forall topic_list results errors w,
  exists rs ess ds w',
    sweep_loops http rnd topic_list years include_citations min_delay
      max_delay (results, errors) w
    = Some (((results ++ rs)%list, (errors ++ ess)%list), w')
    /\ trace w' = (trace w ++ ds)%list
    /\ passes Step (list_prod topic_list years) rs ess ds.
Proof.
  unfold sweep_loops.
  induction topic_list as [ | topic topic_list IH]; intros results errors w.
  - exists [], [], [], w. rewrite !app_nil_r.
    split; [reflexivity | split; [reflexivity | constructor]].
  - destruct (years_loop_passes topic years results errors w)
      as (rs1 & es1 & ds1 & w1 & Hinner & Htr1 & Hp1).
    destruct (IH (results ++ rs1)%list (errors ++ es1)%list w1)
      as (rs2 & es2 & ds2 & w2 & Houter & Htr2 & Hp2).
    exists (rs1 ++ rs2)%list, (es1 ++ es2)%list, (ds1 ++ ds2)%list, w2.
    split; [ | split].
    + cbn [for_each]. unfold bind at 1. rewrite Hinner, Houter.
      now rewrite <- !app_assoc.
    + rewrite Htr2, Htr1. now rewrite app_assoc.
    + cbn [list_prod]. now apply passes_app.
Qed.

(** The handler: a rejected year range does nothing, an accepted one is
    the sequence of passes over the pairs. *)
Lemma api_search_passes topic_list start_year end_year w :
  exists outcome ds w',
    api_search http rnd topic_list start_year end_year include_citations
      min_delay max_delay w = Some (outcome, w')
    /\ trace w' = (trace w ++ ds)%list
    /\ passes Step (list_prod topic_list (range start_year (end_year + 1)))
         (results_of outcome) (errors_of outcome) ds.
Proof.
  destruct (Z_lt_le_dec end_year start_year) as [Hgt | Hle].
  - destruct (api_search_rejected http rnd topic_list start_year end_year
                include_citations min_delay max_delay w)
      as (message & Hrej); [lia | ].
    exists (Rejected message), [], w.
    split; [exact Hrej | split; [now rewrite app_nil_r | ]].
    unfold range. replace (Z.to_nat (end_year + 1 - start_year)) with 0%nat by lia.
    cbn [seq map results_of errors_of].
    replace (list_prod topic_list []) with (@nil (string * Z));
      [constructor | ].
    clear. induction topic_list; [reflexivity | assumption].
  - destruct (sweep_loops_passes (range start_year (end_year + 1)) topic_list
                [] [] w) as (rs & ess & ds & w' & Hloops & Htr & Hp).
    exists (Swept rs ess), ds, w'.
    split; [now apply api_search_swept | split; assumption].
Qed.

End SweepMore.

Section Passes.

Variable http : nat -> GetResult.
Variable rnd : nat -> Q.
Variable include_citations : bool.
Variable min_delay max_delay : Z.

Local Abbreviation body :=
  (sweep_body http rnd include_citations min_delay max_delay).

Lemma sweep_body_shape topic year results errors w :
  exists r es d w',
    body topic year (results, errors) w
    = Some (((results ++ [r])%list, (errors ++ es)%list), w')
    /\ trace w' = (trace w ++ d)%list
    /\ pass_shape topic year r es d.
Proof.
  destruct (sweep_body_runs http rnd include_citations min_delay max_delay
              topic year results errors w)
    as (site & pub & cit & err & w' & Hrun & Hbody).
  destruct (loop_run_kind _ _ _ _ _ _ _ _ _ _ Hrun) as (Hkind & _ & _).
  destruct (loop_run_counts _ _ _ _ _ _ _ _ _ _ Hrun)
    as (delta & Htr & Hsl & Hlo & Hhi & _ & Hback & _ & _).
  cbn [snd] in Hkind. cbn [after_delay trace] in Htr.
  unfold default_max_retries in Hsl, Hlo.
  specialize (Hlo ltac:(lia)). change (Z.to_nat (3 - 0)) with 3%nat in Hsl.
  exists (mkRecord topic year pub (if include_citations then Some cit else None)),
         (if truthy err then [error_line topic year err] else []),
         (EvSleep Courtesy
            (inject_Z min_delay
             + (inject_Z max_delay - inject_Z min_delay) * rnd (draws_made w))%Q
          :: delta), w'.
  split; [ | split; [ | split; [ | split]]].
  - rewrite Hbody. destruct (truthy err); [reflexivity | now rewrite app_nil_r].
  - rewrite Htr, <- app_assoc. reflexivity.
  - reflexivity.
  - inversion Hkind as [pub' cit' | pub' e Hpos | msg Hmsg]; subst.
    + now left.
    + right. exists (advisory e). cbn [Publications].
      split; [reflexivity | split; [discriminate | eauto]].
    + right. exists msg. rewrite (truthy_nonempty msg Hmsg). cbn [Publications].
      split; [reflexivity | split; [assumption | lia]].
  - eexists _, delta. split; [reflexivity | ].
    split; [lia | split; [lia | split; [lia | exact Hback]]].
Qed.

Lemma sweep_body_time topic year results errors w :
  min_delay <= max_delay ->
  (forall i, (0 <= rnd i)%Q /\ (rnd i < 1)%Q) ->
  exists r es d w',
    body topic year (results, errors) w
    = Some (((results ++ [r])%list, (errors ++ es)%list), w')
    /\ trace w' = (trace w ++ d)%list
    /\ pass_time min_delay max_delay topic year r es d.
Proof.
  intros Hdelay Hrnd.
  destruct (sweep_body_runs http rnd include_citations min_delay max_delay
              topic year results errors w)
    as (site & pub & cit & err & w' & Hrun & Hbody).
  destruct (loop_run_time _ _ _ _ _ _ _ _ _ _ Hrnd Hrun)
    as (delta & Htr & Hpos & Hbound); [lia | ].
  cbn [after_delay trace] in Htr.
  unfold default_max_retries in Hbound. specialize (Hbound ltac:(lia)).
  change (inject_Z (3 ^ (0 + 1))) with 3%Q in Hbound.
  change (inject_Z (3 ^ (3 + 1))) with 81%Q in Hbound.
  change (inject_Z 0) with 0%Q in Hbound. change (inject_Z 3) with 3%Q in Hbound.
  exists (mkRecord topic year pub (if include_citations then Some cit else None)),
         (if truthy err then [error_line topic year err] else []),
         (EvSleep Courtesy
            (inject_Z min_delay
             + (inject_Z max_delay - inject_Z min_delay) * rnd (draws_made w))%Q
          :: delta), w'.
  split; [ | split].
  - rewrite Hbody. destruct (truthy err); [reflexivity | now rewrite app_nil_r].
  - rewrite Htr, <- app_assoc. reflexivity.
  - destruct (Hrnd (draws_made w)) as [H0 H1].
    destruct (uniform_bounds (inject_Z min_delay) (inject_Z max_delay) _
                ltac:(rewrite <- Zle_Qle; exact Hdelay) H0 H1) as [Hlo Hhi].
    unfold pass_time. cbn [time_asleep]. split; lra.
Qed.

Lemma sweep_body_quiet topic year results errors w :
  (forall i, retried (http i) = false) ->
  exists r es d w',
    body topic year (results, errors) w
    = Some (((results ++ [r])%list, (errors ++ es)%list), w')
    /\ trace w' = (trace w ++ d)%list
    /\ pass_quiet include_citations topic year r es d.
Proof.
  intros Hquiet.
  destruct (sweep_body_runs http rnd include_citations min_delay max_delay
              topic year results errors w)
    as (site & pub & cit & err & w' & Hrun & Hbody).
  exists (mkRecord topic year pub (if include_citations then Some cit else None)),
         (if truthy err then [error_line topic year err] else []).
  assert (Hfirst := Hquiet (requests_made (after_delay rnd min_delay max_delay w))).
  unfold retried in Hfirst.
  assert (Hshape :
    exists d, trace w' = (trace w ++ d)%list
              /\ pass_quiet include_citations topic year
                   (mkRecord topic year pub
                      (if include_citations then Some cit else None))
                   (if truthy err then [error_line topic year err] else []) d).
  { unfold pass_quiet. cbn [Publications].
    inversion Hrun as [rc w0 Hgt | rc w0 Hle Hc Hlast | rc w0 out w0' Hle Hc Hmore Hsub
                      | rc w0 e Hle Hc Hwhy | rc w0 e out w0' Hle Hc Hmore Hs Hsub
                      | rc w0 data Hle Hc Hi | rc w0 data c m Hle Hc Hi Hs]; subst;
      try (rewrite Hc in Hfirst; congruence);
      try (unfold default_max_retries in *; lia).
    - eexists. split; [ | eexists; reflexivity].
      cbn [after_get after_delay trace]. rewrite <- app_assoc.
      replace (include_citations && (0 >? 0)) with false
        by (now rewrite andb_false_r).
      reflexivity.
    - eexists. split; [ | eexists; reflexivity].
      cbn [after_get after_delay trace]. rewrite <- app_assoc.
      rewrite Hi. reflexivity.
    - eexists. split; [ | eexists; reflexivity].
      cbn [after_get after_delay trace]. rewrite <- !app_assoc.
      rewrite Hi. reflexivity. }
  destruct Hshape as (d & Htr & Hq).
  exists d, w'. split; [ | split; assumption].
  rewrite Hbody. destruct (truthy err); [reflexivity | now rewrite app_nil_r].
Qed.

End Passes.

(** ** The executor, whatever the replies *)

(** For [max_retries >= 0] and any replies, a call issues at least one
    request and at most [max_retries + 2], sleeps at most [max_retries]
    times and issues a new request after each sleep; without citation
    inclusion every request is the count request (limit 1) and there are at
    most [max_retries + 1] of them. *)
Theorem executor_request_budget (http : nat -> GetResult) (rnd : nat -> Q)
    (query : string) (year : Z) (include_citations : bool) (max_retries : Z)
    (w : World) :
  0 <= max_retries ->
  exists out delta w',
    search_semantic_scholar_at http rnd query year include_citations
      max_retries w = Some (out, w')
    /\ trace w' = (trace w ++ delta)%list
    /\ (1 <= length (requests_of delta) <= Z.to_nat max_retries + 2)%nat
    /\ (length (sleeps_of delta) <= Z.to_nat max_retries)%nat
    /\ (length (sleeps_of delta) + 1 <= length (requests_of delta))%nat
    /\ (include_citations = false ->
        (length (requests_of delta) <= Z.to_nat max_retries + 1)%nat
        /\ Forall (eq (primary_params query year)) (requests_of delta)).
Proof.
  intros Hmr.
  destruct (search_semantic_scholar_at_runs http rnd query year
              include_citations max_retries w) as (out & w' & Hat & Hrun).
  destruct (loop_run_counts _ _ _ _ _ _ _ _ _ _ Hrun)
    as (delta & Htr & Hsl & Hlo & Hhi & Hno & _).
  rewrite Z.sub_0_r in Hsl. specialize (Hlo Hmr).
  exists out, delta, w'.
  split; [exact Hat | split; [exact Htr | ]].
  split; [lia | split; [exact Hsl | split; [exact Hlo | ]]].
  intros Hic. destruct (Hno Hic) as [Hn Hall]. split; [lia | exact Hall].
Qed.

Lemma executor_request_budget_witness :
  0 <= 3
  /\ exists out delta w',
       search_semantic_scholar_at (fun _ => too_many_requests) half "AI" 2020
         true 3 world0 = Some (out, w')
       /\ trace w' = (trace world0 ++ delta)%list
       /\ (1 <= length (requests_of delta) <= Z.to_nat 3 + 2)%nat
       /\ (length (sleeps_of delta) <= Z.to_nat 3)%nat
       /\ (length (sleeps_of delta) + 1 <= length (requests_of delta))%nat
       /\ (true = false ->
           (length (requests_of delta) <= Z.to_nat 3 + 1)%nat
           /\ Forall (eq (primary_params "AI" 2020)) (requests_of delta)).
Proof.
  assert (H : 0 <= 3) by lia.
  split; [exact H | ].
  exact (executor_request_budget (fun _ => too_many_requests) half "AI" 2020
           true 3 world0 H).
Defined.

(** For [max_retries >= 0] and jitter draws in [0, 1), the backoff sleeps
    of one call add up to at most [(3^(max_retries+1) - 3) / 2 +
    max_retries] seconds, which is 42 seconds for the default 3. *)
Theorem executor_backoff_time (http : nat -> GetResult) (rnd : nat -> Q)
    (query : string) (year : Z) (include_citations : bool) (max_retries : Z)
    (w : World) :
  0 <= max_retries ->
  (forall i, (0 <= rnd i)%Q /\ (rnd i < 1)%Q) ->
  exists out delta w',
    search_semantic_scholar_at http rnd query year include_citations
      max_retries w = Some (out, w')
    /\ trace w' = (trace w ++ delta)%list
    /\ (0 <= time_asleep delta)%Q
    /\ (2 * time_asleep delta
        <= inject_Z (3 ^ (max_retries + 1) - 3 + 2 * max_retries))%Q.
Proof.
  intros Hmr Hrnd.
  destruct (search_semantic_scholar_at_runs http rnd query year
              include_citations max_retries w) as (out & w' & Hat & Hrun).
  destruct (loop_run_time _ _ _ _ _ _ _ _ _ _ Hrnd Hrun)
    as (delta & Htr & Hpos & Hbound); [lia | ].
  specialize (Hbound Hmr).
  exists out, delta, w'.
  split; [exact Hat | split; [exact Htr | split; [exact Hpos | ]]].
  change (inject_Z (3 ^ (0 + 1))) with 3%Q in Hbound.
  change (inject_Z 0) with 0%Q in Hbound.
  rewrite inject_Z_plus, inject_Z_mult.
  unfold Z.sub. rewrite inject_Z_plus.
  change (inject_Z (- (3))) with (- (3))%Q. change (inject_Z 2) with 2%Q.
  lra.
Qed.

Lemma executor_backoff_time_witness :
  0 <= 3
  /\ (forall i, (0 <= half i)%Q /\ (half i < 1)%Q)
  /\ exists out delta w',
       search_semantic_scholar_at (fun _ => too_many_requests) half "AI" 2020
         false 3 world0 = Some (out, w')
       /\ trace w' = (trace world0 ++ delta)%list
       /\ (0 <= time_asleep delta)%Q
       /\ (2 * time_asleep delta <= inject_Z (3 ^ (3 + 1) - 3 + 2 * 3))%Q.
Proof.
  assert (H : 0 <= 3) by lia.
  split; [exact H | split; [exact half_in_unit_interval | ]].
  exact (executor_backoff_time (fun _ => too_many_requests) half "AI" 2020
           false 3 world0 H half_in_unit_interval).
Defined.

(** Whatever the replies, the result of a call is of one of three kinds:
    no message; the advisory message beside a positive count and citation
    count 0; or a failure with counts 0 and 0 and a non-empty message.
    Every return other than the success statement is a failure, the
    message is never the empty string (so [if error_msg:] tests its
    presence), and without citation inclusion the citation count is 0. *)
Theorem executor_result_kinds (http : nat -> GetResult) (rnd : nat -> Q)
    (query : string) (year : Z) (include_citations : bool) (max_retries : Z)
    (w : World) :
  exists site pub cit err w',
    search_semantic_scholar_at http rnd query year include_citations
      max_retries w = Some ((site, (pub, cit, err)), w')
    /\ ResultKind (pub, cit, err)
    /\ (site <> AtSuccess -> pub = 0 /\ cit = 0%Q /\ err <> None)
    /\ (truthy err = true <-> err <> None)
    /\ (include_citations = false -> cit = 0%Q).
Proof.
  destruct (search_semantic_scholar_at_runs http rnd query year
              include_citations max_retries w)
    as ([site [[pub cit] err]] & w' & Hat & Hrun).
  destruct (loop_run_kind _ _ _ _ _ _ _ _ _ _ Hrun) as (Hkind & Hfail & Hno).
  cbn [fst snd] in *.
  exists site, pub, cit, err, w'.
  split; [exact Hat | split; [exact Hkind | split; [ | split; [ | exact Hno]]]].
  - intros Hsite. destruct (Hfail Hsite) as (msg & Heq & _).
    inversion Heq. repeat split; discriminate.
  - inversion Hkind as [pub' cit' | pub' e Hpos | msg Hmsg]; subst.
    + split; [discriminate | congruence].
    + split; [discriminate | reflexivity].
    + rewrite (truthy_nonempty msg Hmsg). split; [discriminate | reflexivity].
Qed.

Lemma executor_result_kinds_witness :
  exists site pub cit err w',
    search_semantic_scholar_at (fun _ => server_error) half "AI" 2020 true 3
      world0 = Some ((site, (pub, cit, err)), w')
    /\ ResultKind (pub, cit, err)
    /\ (site <> AtSuccess -> pub = 0 /\ cit = 0%Q /\ err <> None)
    /\ (truthy err = true <-> err <> None)
    /\ (true = false -> cit = 0%Q).
Proof.
  exact (executor_result_kinds (fun _ => server_error) half "AI" 2020 true 3
           world0).
Defined.

(** ** Rounding to binary64 *)

(** Rounding to the nearest integer stays between integer bounds. *)
Lemma round_half_even_bounds (x : Q) (a b : Z) :
  (inject_Z a <= x)%Q -> (x <= inject_Z b)%Q ->
  a <= round_half_even x <= b.
Proof.
  intros Ha Hb.
  assert (Hfa : a <= Qfloor x).
  { rewrite <- (Qfloor_Z a). now apply Qfloor_resp_le. }
  assert (Hfb : Qfloor x <= b).
  { rewrite <- (Qfloor_Z b). now apply Qfloor_resp_le. }
  unfold round_half_even.
  destruct (Qcompare_spec (x - inject_Z (Qfloor x)) (1 # 2)) as [He | Hl | Hg];
    [destruct (Z.even (Qfloor x)) | | ]; try lia.
  - split; [lia | ].
    destruct (Z.eq_dec (Qfloor x) b) as [Hf | Hf]; [ | lia].
    rewrite Hf in He. lra.
  - split; [lia | ].
    destruct (Z.eq_dec (Qfloor x) b) as [Hf | Hf]; [ | lia].
    rewrite Hf in Hg. lra.
Qed.

(** Up to exponent 0 a power of two is the inverse of a positive
    integer. *)
Lemma pow2_small (e : Z) :
  e <= 0 -> (pow2 e == / inject_Z (2 ^ (- e)))%Q.
Proof.
  intros He. unfold pow2.
  destruct (Z.leb_spec 0 e) as [H0 | H0]; [ | reflexivity].
  replace e with 0 by lia. reflexivity.
Qed.

Lemma binade_small (q : Q) :
  (0 < q)%Q -> (q < inject_Z (2 ^ 53))%Q -> binade q <= 52.
Proof.
  intros Hpos Hlt. unfold binade.
  destruct (Qle_bool 1 q) eqn:H1.
  - apply Qle_bool_iff in H1.
    assert (Hf : 1 <= Qfloor q).
    { change 1 with (Qfloor 1). now apply Qfloor_resp_le. }
    assert (Hu : Qfloor q < 2 ^ 53).
    { rewrite Zlt_Qlt. apply Qle_lt_trans with q; [apply Qfloor_le | exact Hlt]. }
    assert (Z.log2 (Qfloor q) < 53) by (apply Z.log2_lt_pow2; lia).
    lia.
  - pose proof (Z.log2_up_nonneg (Qceiling (/ q))). lia.
Qed.

(** Below [2^53] every integer is a float, so rounding a positive rational
    keeps it between any two integers it lies between. *)
Lemma binary64_bounds_pos (q : Q) (a b : Z) :
  (0 < q)%Q -> (q < inject_Z (2 ^ 53))%Q ->
  (inject_Z a <= q)%Q -> (q <= inject_Z b)%Q ->
  (inject_Z a <= binary64 q)%Q /\ (binary64 q <= inject_Z b)%Q.
Proof.
  intros Hpos Hlt Ha Hb. unfold binary64.
  rewrite (proj1 (Qgt_alt q 0) Hpos). cbv zeta.
  pose proof (binade_small q Hpos Hlt) as He.
  set (s := 2 ^ (- (binade q - 52))).
  assert (Hs : 0 < s) by (apply Z.pow_pos_nonneg; lia).
  assert (HsQ : (0 < inject_Z s)%Q)
    by (change 0%Q with (inject_Z 0); now rewrite <- Zlt_Qlt).
  assert (Hulp : (pow2 (binade q - 52) == / inject_Z s)%Q)
    by (apply pow2_small; lia).
  set (x := (q / pow2 (binade q - 52))%Q).
  assert (Hx : (x == q * inject_Z s)%Q).
  { unfold x. rewrite Hulp. unfold Qdiv. now rewrite Qinv_involutive. }
  destruct (round_half_even_bounds x (a * s) (b * s)) as [Hl Hu].
  - rewrite Hx, inject_Z_mult. apply Qmult_le_compat_r; [exact Ha | lra].
  - rewrite Hx, inject_Z_mult. apply Qmult_le_compat_r; [exact Hb | lra].
  - rewrite Hulp. rewrite Zle_Qle, inject_Z_mult in Hl, Hu.
    split.
    + apply Qle_shift_div_l; assumption.
    + apply Qle_shift_div_r; assumption.
Qed.

(** The same on both sides of 0. *)
Lemma binary64_bounds (q : Q) (a b : Z) :
  (inject_Z (- 2 ^ 53) < q)%Q -> (q < inject_Z (2 ^ 53))%Q ->
  (inject_Z a <= q)%Q -> (q <= inject_Z b)%Q ->
  (inject_Z a <= binary64 q)%Q /\ (binary64 q <= inject_Z b)%Q.
Proof.
  intros Hlo Hhi Ha Hb.
  destruct (Qcompare_spec q 0) as [H0 | Hneg | Hpos].
  - unfold binary64. rewrite (proj1 (Qeq_alt q 0) H0).
    rewrite H0 in Ha, Hb. split; assumption.
  - assert (Hopp : binary64 q = (- binary64 (- q))%Q).
    { unfold binary64.
      rewrite (proj1 (Qlt_alt q 0) Hneg).
      assert (Hgt : (0 < - q)%Q) by lra.
      now rewrite (proj1 (Qgt_alt (- q) 0) Hgt). }
    rewrite Hopp.
    destruct (binary64_bounds_pos (- q) (- b) (- a)) as [Hl Hu].
    + lra.
    + rewrite inject_Z_opp in Hlo. lra.
    + rewrite inject_Z_opp. lra.
    + rewrite inject_Z_opp. lra.
    + rewrite inject_Z_opp in Hl, Hu. split; lra.
  - now apply binary64_bounds_pos.
Qed.

(** ** Backoff waits, as the floats the program sleeps *)

(** C5, as the code has it: for up to 33 retries (the program asks for 3)
    the n-th backoff sleep of a call (n counted from 1) lasts between
    [3^n] and [3^n + 1] seconds when it follows a rate-limit response and
    between [2^n] and [2^n + 1] seconds when it follows a
    [RequestException], both ends included, the jitter being any draw of
    [0, 1): the float sum of the power and the jitter can round up to the
    upper end. *)
Theorem backoff_wait_closed_bounds (http : nat -> GetResult) (rnd : nat -> Q)
    (query : string) (year : Z) (include_citations : bool) (max_retries : Z)
    (w : World) :
  max_retries <= 33 ->
  (forall i, (0 <= rnd i)%Q /\ (rnd i < 1)%Q) ->
  exists out delta w',
    search_semantic_scholar_at http rnd query year include_citations
      max_retries w = Some (out, w')
    /\ trace w' = (trace w ++ delta)%list
    /\ forall n k t,
         nth_error (sleeps_of delta) n = Some (k, t) ->
         backoff_rounds (Z.of_nat (S n)) (http (requests_made w + n)%nat) k t.
Proof.
  intros Hmr Hrnd.
  destruct (search_semantic_scholar_at_runs http rnd query year
              include_citations max_retries w) as (out & w' & Hat & Hrun).
  destruct (loop_run_backoffs _ _ _ _ _ _ _ _ _ _ Hrnd Hrun)
    as (delta & Htr & Hall).
  destruct (loop_run_counts _ _ _ _ _ _ _ _ _ _ Hrun)
    as (delta' & Htr' & Hlen & _).
  assert (delta' = delta)
    by (rewrite Htr in Htr'; now apply app_inv_head in Htr').
  subst delta'. rewrite Z.sub_0_r in Hlen.
  exists out, delta, w'. split; [exact Hat | split; [exact Htr | ]].
  intros n k t Hn.
  assert (Hlt : (n < length (sleeps_of delta))%nat)
    by (apply nth_error_Some; congruence).
  apply Hall in Hn.
  replace (0 + 1 + Z.of_nat n) with (Z.of_nat (S n)) in Hn by lia.
  set (m := Z.of_nat (S n)) in *.
  assert (Hm : 0 <= m <= 33) by lia.
  assert (H3 : 0 < 3 ^ m) by (apply Z.pow_pos_nonneg; lia).
  assert (H2 : 0 < 2 ^ m) by (apply Z.pow_pos_nonneg; lia).
  assert (H23 : 2 ^ m <= 3 ^ m) by (apply Z.pow_le_mono_l; lia).
  assert (H33 : 3 ^ m <= 3 ^ 33) by (apply Z.pow_le_mono_r; lia).
  assert (Hcap : 3 ^ 33 + 1 < 2 ^ 53) by reflexivity.
  assert (Hbound : forall b : Z,
             0 < b -> b <= 3 ^ m ->
             (inject_Z b <= t)%Q -> (t < inject_Z b + 1)%Q ->
             (inject_Z b <= binary64 t)%Q
             /\ (binary64 t <= inject_Z b + 1)%Q).
  { intros b Hb0 Hb3 Hlo Hhi.
    assert (Hb0' : (0 < inject_Z b)%Q)
      by (change 0%Q with (inject_Z 0); now rewrite <- Zlt_Qlt).
    assert (Hcap' : (inject_Z (b + 1) < inject_Z (2 ^ 53))%Q)
      by (rewrite <- Zlt_Qlt; lia).
    rewrite inject_Z_plus in Hcap'. change (inject_Z 1) with 1%Q in Hcap'.
    destruct (binary64_bounds_pos t b (b + 1)) as [Hl Hu].
    - lra.
    - lra.
    - exact Hlo.
    - rewrite inject_Z_plus. change (inject_Z 1) with 1%Q. lra.
    - rewrite inject_Z_plus in Hu. change (inject_Z 1) with 1%Q in Hu.
      split; assumption. }
  destruct Hn as [(Hk & Hg & Hlo & Hhi) | (Hk & Hg & Hlo & Hhi)].
  - left. split; [exact Hk | split; [exact Hg | ]].
    apply Hbound; [exact H3 | lia | exact Hlo | exact Hhi].
  - right. split; [exact Hk | split; [exact Hg | ]].
    apply Hbound; [exact H2 | exact H23 | exact Hlo | exact Hhi].
Qed.

Lemma backoff_wait_closed_bounds_witness :
  3 <= 33
  /\ (forall i, (0 <= almost_one i)%Q /\ (almost_one i < 1)%Q)
  /\ exists out delta w',
       search_semantic_scholar_at (fun _ => too_many_requests) almost_one
         "AI" 2020 false 3 world0 = Some (out, w')
       /\ trace w' = (trace world0 ++ delta)%list
       /\ forall n k t,
            nth_error (sleeps_of delta) n = Some (k, t) ->
            backoff_rounds (Z.of_nat (S n))
              ((fun _ => too_many_requests) (requests_made world0 + n)%nat)
              k t.
Proof.
  assert (H : 3 <= 33) by lia.
  split; [exact H | split; [exact almost_one_in_unit_interval | ]].
  exact (backoff_wait_closed_bounds (fun _ => too_many_requests) almost_one
           "AI" 2020 false 3 world0 H almost_one_in_unit_interval).
Defined.

(** C5 as stated fails: when every draw is [1 - 2^-53], which is below 1,
    and every reply is a 429, the three backoff sleeps last 4, 10 and 28
    seconds, the upper ends [3^n + 1] that the half-open intervals
    exclude; and when every request raises an exception that mentions 429,
    the first backoff sleep lasts 3 seconds, the upper end [2^1 + 1]. *)
Lemma backoff_wait_reaches_upper_end :
  (forall i, (0 <= almost_one i)%Q /\ (almost_one i < 1)%Q)
  /\ exists out t1 t2 t3 w',
       search_semantic_scholar_at (fun _ => too_many_requests) almost_one
         "AI" 2020 false 3 world0 = Some (out, w')
       /\ sleeps_of (trace w')
          = [(RateLimitBackoff, t1); (RateLimitBackoff, t2);
             (RateLimitBackoff, t3)]
       /\ (binary64 t1 == inject_Z (3 ^ 1) + 1)%Q
       /\ (binary64 t2 == inject_Z (3 ^ 2) + 1)%Q
       /\ (binary64 t3 == inject_Z (3 ^ 3) + 1)%Q
       /\ ~ (binary64 t1 < inject_Z (3 ^ 1) + 1)%Q
       /\ exists out' t rest w'',
            search_semantic_scholar_at (fun _ => Raise "429 Client Error")
              almost_one "AI" 2020 false 3 world0 = Some (out', w'')
            /\ sleeps_of (trace w'') = (ErrorBackoff, t) :: rest
            /\ (binary64 t == inject_Z (2 ^ 1) + 1)%Q
            /\ ~ (binary64 t < inject_Z (2 ^ 1) + 1)%Q.
Proof.
  split; [exact almost_one_in_unit_interval | ].
  do 5 eexists.
  split; [vm_compute; reflexivity | ].
  split; [vm_compute; reflexivity | ].
  split; [vm_compute; reflexivity | ].
  split; [vm_compute; reflexivity | ].
  split; [vm_compute; reflexivity | ].
  split; [vm_compute; discriminate | ].
  do 4 eexists.
  split; [vm_compute; reflexivity | ].
  split; [vm_compute; reflexivity | ].
  split; [vm_compute; reflexivity | ].
  vm_compute. discriminate.
Qed.

(** ** The citation average *)

Lemma sum_citations_from (papers : list Paper) : forall a,
  fold_left (fun acc p => acc + match citationCount p with
                                | Some c => c
                                | None => 0
                                end) papers a
  = a + sum_citations papers.
Proof.
  unfold sum_citations.
  induction papers as [ | q papers IH]; intros a; cbn [fold_left]; [lia | ].
  rewrite (IH (a + _)), (IH (0 + _)). lia.
Qed.

Lemma sum_citations_cons p papers :
  sum_citations (p :: papers) = paper_citations p + sum_citations papers.
Proof.
  unfold sum_citations at 1. cbn [fold_left].
  rewrite sum_citations_from. reflexivity.
Qed.

Lemma sum_citations_bounds lo hi papers :
  Forall (fun p => lo <= paper_citations p <= hi) papers ->
  lo * Z.of_nat (length papers) <= sum_citations papers
  <= hi * Z.of_nat (length papers).
Proof.
  induction 1 as [ | p papers Hp Hall IH].
  - cbn. lia.
  - rewrite sum_citations_cons. cbn [length]. lia.
Qed.

(** The sum the program takes of a sample is the sum of its citation
    counts, a paper without a count adding 0. *)
Lemma sum_citations_counts (papers : list Paper) :
  sum_citations papers = fold_right Z.add 0 (map paper_citations papers).
Proof.
  induction papers as [ | p papers IH]; [reflexivity | ].
  rewrite sum_citations_cons, IH. reflexivity.
Qed.

(** When the count request succeeds with a positive total and the
    citation request is answered without error, the call returns that
    total with no message and the arithmetic mean of the sampled citation
    counts: their sum divided by their number, a paper without
    [citationCount] counting as 0, and 0 rather than a division by zero
    for an empty or missing sample.  The mean lies between the least and
    the greatest count of the sample, and so does the float the division
    rounds it to when these are below [2^53] in magnitude. *)
Theorem citation_average_of_sample (http : nat -> GetResult) (rnd : nat -> Q)
    (query : string) (year : Z) (max_retries : Z) (w : World)
    (data : Json) (citation_response : Response) :
  0 <= max_retries ->
  classify (http (requests_made w)) = Succeeded data ->
  0 < total_of data ->
  http (S (requests_made w)) = Reply citation_response ->
  raise_for_status citation_response = None ->
  exists avg w',
    search_semantic_scholar http rnd query year true max_retries w
    = Some ((total_of data, avg, None), w')
    /\ avg = sample_mean (sample_of (body citation_response))
    /\ (sample_of (body citation_response) = [] -> avg = 0%Q)
    /\ (sample_of (body citation_response) <> [] ->
        forall lo hi,
          Forall (fun p => lo <= paper_citations p <= hi)
                 (sample_of (body citation_response)) ->
          (inject_Z lo <= avg)%Q /\ (avg <= inject_Z hi)%Q
          /\ (- 2 ^ 53 < lo -> hi < 2 ^ 53 ->
              (inject_Z lo <= binary64 avg)%Q
              /\ (binary64 avg <= inject_Z hi)%Q)).
Proof.
  intros Hmr Hc Hpos Hreply Hstatus.
  assert (Hrun :
    exists avg,
      search_semantic_scholar_at http rnd query year true max_retries w
      = Some ((AtSuccess, (total_of data, avg, None)),
              after_get (citation_params query year)
                (after_get (primary_params query year) w))
      /\ avg = match sample_of (body citation_response) with
               | [] => 0%Q
               | _ :: _ =>
                 (inject_Z (sum_citations (sample_of (body citation_response)))
                  / inject_Z (Z.of_nat
                                (length (sample_of (body citation_response)))))%Q
               end).
  { unfold search_semantic_scholar_at, search_fuel.
    replace (Z.to_nat (max_retries + 1)) with (S (Z.to_nat max_retries)) by lia.
    rewrite search_loop_step by assumption. cbv zeta. rewrite Hc.
    replace (total_of data >? 0) with true by (symmetry; now apply Z.gtb_lt).
    cbn [andb].
    unfold sample_citations, bind, requests_get, ret.
    cbn [after_get requests_made draws_made trace].
    rewrite Hreply, Hstatus. unfold sample_of.
    destruct (js_data (body citation_response)) as [[ | p papers] | ];
      eexists; split; reflexivity. }
  destruct Hrun as (avg & Hat & Havg).
  exists avg, (after_get (citation_params query year)
                 (after_get (primary_params query year) w)).
  split; [now rewrite (search_semantic_scholar_of_at _ _ _ _ _ _ _ _ _ Hat) | ].
  split.
  { rewrite Havg. unfold sample_mean.
    destruct (sample_of (body citation_response)) as [ | p papers];
      [reflexivity | ].
    now rewrite sum_citations_counts. }
  destruct (sample_of (body citation_response)) as [ | p papers] eqn:Hs.
  - split; [intros _; exact Havg | congruence].
  - split; [discriminate | ].
    intros _ lo hi Hall. apply sum_citations_bounds in Hall.
    assert (Hn : (0 < inject_Z (Z.of_nat (length (p :: papers))))%Q)
      by (change 0%Q with (inject_Z 0); rewrite <- Zlt_Qlt; cbn [length]; lia).
    assert (Hlo : (inject_Z lo <= avg)%Q).
    { subst avg. apply Qle_shift_div_l; [exact Hn | ].
      rewrite <- inject_Z_mult, <- Zle_Qle. lia. }
    assert (Hhi : (avg <= inject_Z hi)%Q).
    { subst avg. apply Qle_shift_div_r; [exact Hn | ].
      rewrite <- inject_Z_mult, <- Zle_Qle. lia. }
    split; [exact Hlo | split; [exact Hhi | ]].
    intros Hlo53 Hhi53.
    rewrite Zlt_Qlt in Hlo53, Hhi53.
    apply binary64_bounds; [lra | lra | exact Hlo | exact Hhi].
Qed.

Lemma citation_average_of_sample_witness :
  0 <= 3
  /\ classify (first_then (ok_reply 150) (Reply sample_citation_response)
                 (requests_made world0))
     = Succeeded (mkJson (Some 150) None)
  /\ 0 < total_of (mkJson (Some 150) None)
  /\ first_then (ok_reply 150) (Reply sample_citation_response)
       (S (requests_made world0))
     = Reply sample_citation_response
  /\ raise_for_status sample_citation_response = None
  /\ exists avg w',
       search_semantic_scholar
         (first_then (ok_reply 150) (Reply sample_citation_response)) half
         "AI" 2020 true 3 world0
       = Some ((150, avg, None), w')
       /\ avg = sample_mean (sample_of (body sample_citation_response))
       /\ (inject_Z 0 <= avg)%Q /\ (avg <= inject_Z 8)%Q
       /\ (inject_Z 0 <= binary64 avg)%Q /\ (binary64 avg <= inject_Z 8)%Q.
Proof.
  assert (H : 0 <= 3) by lia.
  split; [exact H | ].
  split; [reflexivity | split; [reflexivity | split; [reflexivity | split; [reflexivity | ]]]].
  destruct (citation_average_of_sample
              (first_then (ok_reply 150) (Reply sample_citation_response))
              half "AI" 2020 3 world0 (mkJson (Some 150) None)
              sample_citation_response H eq_refl eq_refl eq_refl eq_refl)
    as (avg & w' & Hrun & Hmean & _ & Hbounds).
  exists avg, w'. split; [exact Hrun | split; [exact Hmean | ]].
  destruct (Hbounds ltac:(discriminate) 0 8) as (Hlo & Hhi & Hfl).
  - repeat constructor; cbn; lia.
  - destruct Hfl as [Hl Hu]; [reflexivity | reflexivity | ].
    split; [exact Hlo | split; [exact Hhi | split; [exact Hl | exact Hu]]].
Defined.

(** ** The sweep, whatever the replies *)

Lemma in_range (a b y : Z) : In y (range a b) <-> a <= y < b.
Proof.
  unfold range. rewrite in_map_iff. split.
  - intros (i & <- & Hi). apply in_seq in Hi. lia.
  - intros H. exists (Z.to_nat (y - a)). split; [lia | ].
    apply in_seq. lia.
Qed.

Lemma NoDup_range (a b : Z) : NoDup (range a b).
Proof.
  unfold range. apply NoDup_map_NoDup_ForallPairs; [ | apply seq_NoDup].
  intros i j _ _ H. lia.
Qed.

Lemma NoDup_list_prod {A B : Type} (l : list A) (l' : list B) :
  NoDup l -> NoDup l' -> NoDup (list_prod l l').
Proof.
  intros Hl Hl'. induction Hl as [ | x l Hx Hl IH]; cbn [list_prod].
  - constructor.
  - apply NoDup_app.
    + apply NoDup_map_NoDup_ForallPairs; [ | exact Hl'].
      intros y z _ _ H. now inversion H.
    + exact IH.
    + intros [x' y] Hin1 Hin2. apply in_map_iff in Hin1 as (z & Hz & _).
      inversion Hz; subst. apply in_prod_iff in Hin2 as [Hin2 _]. contradiction.
Qed.

Lemma passes_shape_keys pairs rs ess ds :
  passes pass_shape pairs rs ess ds -> map key rs = pairs.
Proof.
  induction 1 as [ | topic year pairs r es d rs ess ds Hstep Hrest IH];
    [reflexivity | ].
  destruct Hstep as (Hkey & _). cbn [map]. now rewrite Hkey, IH.
Qed.

Lemma passes_shape_errors pairs rs ess ds :
  passes pass_shape pairs rs ess ds ->
  (length ess <= length rs)%nat
  /\ Forall (fun line =>
               exists topic year m,
                 In (topic, year) pairs
                 /\ line = error_line topic year (Some m) /\ m <> "") ess.
Proof.
  induction 1 as [ | topic year pairs r es d rs ess ds Hstep Hrest IH].
  - split; [apply Nat.le_refl | constructor].
  - destruct IH as [Hlen Hall].
    destruct Hstep as (_ & [-> | (m & -> & Hm & _)] & _); cbn [app length].
    + split; [lia | ].
      eapply Forall_impl; [ | exact Hall].
      intros line (t & y & m & Hin & Hline & Hm).
      exists t, y, m. split; [now right | now split].
    + split; [lia | ].
      constructor.
      * exists topic, year, m. split; [now left | now split].
      * eapply Forall_impl; [ | exact Hall].
        intros line (t & y & m' & Hin & Hline & Hm').
        exists t, y, m'. split; [now right | now split].
Qed.

Lemma passes_shape_counts pairs rs ess ds :
  passes pass_shape pairs rs ess ds ->
  length rs = length pairs
  /\ (length pairs <= length (requests_of ds))%nat
  /\ (length (requests_of ds) <= 5 * length pairs)%nat
  /\ length (sleeps_of ds)
     = (length pairs + length (backoffs_of ds))%nat
  /\ (length (backoffs_of ds) <= 3 * length pairs)%nat.
Proof.
  induction 1 as [ | topic year pairs r es d rs ess ds Hstep Hrest IH].
  - cbn. repeat split; lia.
  - destruct IH as (Hrs & Hlo & Hhi & Hsl & Hback).
    destruct Hstep as (_ & _ & delay & call & -> & H1 & H5 & H3 & Hb).
    cbn [app length requests_of sleeps_of].
    rewrite requests_of_app, sleeps_of_app, !length_app.
    change (backoffs_of (EvSleep Courtesy delay :: call ++ ds))
      with (backoffs_of (call ++ ds)).
    rewrite backoffs_of_app, length_app, Hb.
    repeat split; lia.
Qed.

(** Every record of a sweep is for a requested pair: its topic is one of
    the topics and its year lies in the inclusive range; the records come
    in loop order, and distinct topics give distinct (topic, year) keys. *)
Theorem sweep_records_in_range (http : nat -> GetResult) (rnd : nat -> Q)
    (topic_list : list string) (start_year end_year : Z)
    (include_citations : bool) (min_delay max_delay : Z) (w : World) :
  exists outcome w',
    api_search http rnd topic_list start_year end_year include_citations
      min_delay max_delay w = Some (outcome, w')
    /\ Forall (fun r => In (Topic r) topic_list
                        /\ start_year <= Year r <= end_year)
         (results_of outcome)
    /\ (NoDup topic_list -> NoDup (map key (results_of outcome))).
Proof.
  destruct (api_search_passes http rnd include_citations min_delay max_delay
              pass_shape
              (sweep_body_shape http rnd include_citations min_delay max_delay)
              topic_list start_year end_year w)
    as (outcome & ds & w' & Hrun & _ & Hp).
  apply passes_shape_keys in Hp.
  exists outcome, w'. split; [exact Hrun | split].
  - apply Forall_forall. intros r Hr.
    assert (Hin : In (key r) (map key (results_of outcome))) by now apply in_map.
    rewrite Hp in Hin. apply in_prod_iff in Hin as [Ht Hy].
    apply in_range in Hy. cbn [key fst snd] in *. split; [exact Ht | lia].
  - intros Hnd. rewrite Hp. apply NoDup_list_prod; [exact Hnd | apply NoDup_range].
Qed.

Lemma sweep_records_in_range_witness :
  exists outcome w',
    api_search (first_then (ok_reply 150) (ok_reply 0)) half ["AI"; "ML"]
      2020 2021 false 2 5 world0 = Some (outcome, w')
    /\ Forall (fun r => In (Topic r) ["AI"; "ML"] /\ 2020 <= Year r <= 2021)
         (results_of outcome)
    /\ (NoDup ["AI"; "ML"] -> NoDup (map key (results_of outcome))).
Proof.
  exact (sweep_records_in_range (first_then (ok_reply 150) (ok_reply 0)) half
           ["AI"; "ML"] 2020 2021 false 2 5 world0).
Defined.

(** The error list of a sweep has at most one line per record, and every
    line is the line of a requested pair with a non-empty message. *)
Theorem sweep_errors_per_pair (http : nat -> GetResult) (rnd : nat -> Q)
    (topic_list : list string) (start_year end_year : Z)
    (include_citations : bool) (min_delay max_delay : Z) (w : World) :
  exists outcome w',
    api_search http rnd topic_list start_year end_year include_citations
      min_delay max_delay w = Some (outcome, w')
    /\ (length (errors_of outcome) <= length (results_of outcome))%nat
    /\ Forall (fun line =>
                 exists topic year m,
                   In topic topic_list /\ start_year <= year <= end_year
                   /\ line = error_line topic year (Some m) /\ m <> "")
         (errors_of outcome).
Proof.
  destruct (api_search_passes http rnd include_citations min_delay max_delay
              pass_shape
              (sweep_body_shape http rnd include_citations min_delay max_delay)
              topic_list start_year end_year w)
    as (outcome & ds & w' & Hrun & _ & Hp).
  apply passes_shape_errors in Hp as [Hlen Hall].
  exists outcome, w'. split; [exact Hrun | split; [exact Hlen | ]].
  eapply Forall_impl; [ | exact Hall].
  intros line (t & y & m & Hin & Hline & Hm).
  apply in_prod_iff in Hin as [Ht Hy]. apply in_range in Hy.
  exists t, y, m. repeat split; try assumption; lia.
Qed.

(** Whatever the replies, a sweep of n pairs issues between n and 5n
    requests (at most four count requests and one citation request per
    pair), sleeps the courtesy delay exactly n times, and adds at most 3n
    backoff sleeps. *)
Theorem sweep_request_budget (http : nat -> GetResult) (rnd : nat -> Q)
    (topic_list : list string) (start_year end_year : Z)
    (include_citations : bool) (min_delay max_delay : Z) (w : World) :
  exists outcome delta w',
    api_search http rnd topic_list start_year end_year include_citations
      min_delay max_delay w = Some (outcome, w')
    /\ trace w' = (trace w ++ delta)%list
    /\ (length (results_of outcome) <= length (requests_of delta))%nat
    /\ (length (requests_of delta) <= 5 * length (results_of outcome))%nat
    /\ length (sleeps_of delta)
       = (length (results_of outcome) + length (backoffs_of delta))%nat
    /\ (length (backoffs_of delta) <= 3 * length (results_of outcome))%nat.
Proof.
  destruct (api_search_passes http rnd include_citations min_delay max_delay
              pass_shape
              (sweep_body_shape http rnd include_citations min_delay max_delay)
              topic_list start_year end_year w)
    as (outcome & ds & w' & Hrun & Htr & Hp).
  apply passes_shape_counts in Hp as (Hrs & Hlo & Hhi & Hsl & Hback).
  exists outcome, ds, w'. rewrite Hrs.
  split; [exact Hrun | split; [exact Htr | ]].
  repeat split; assumption.
Qed.

Lemma passes_time min_delay max_delay pairs rs ess ds :
  passes (pass_time min_delay max_delay) pairs rs ess ds ->
  length rs = length pairs
  /\ (inject_Z (Z.of_nat (length pairs)) * inject_Z min_delay
      <= time_asleep ds)%Q
  /\ (time_asleep ds
      <= inject_Z (Z.of_nat (length pairs)) * (inject_Z max_delay + 42))%Q.
Proof.
  induction 1 as [ | topic year pairs r es d rs ess ds Hstep Hrest IH].
  - cbn [length time_asleep]. change (inject_Z (Z.of_nat 0)) with 0%Q.
    split; [reflexivity | split; lra].
  - destruct IH as (Hrs & Hlo & Hhi). destruct Hstep as [Hmin Hmax].
    cbn [length]. rewrite time_asleep_app, Nat2Z.inj_succ.
    unfold Z.succ. rewrite inject_Z_plus. change (inject_Z 1) with 1%Q.
    split; [now rewrite Hrs | split; lra].
Qed.

(** With [min_delay <= max_delay] and draws in [0, 1), a sweep of n pairs
    sleeps at least [n * min_delay] and at most [n * (max_delay + 42)]
    seconds in all, courtesy delays and backoffs together. *)
Theorem sweep_sleeping_time (http : nat -> GetResult) (rnd : nat -> Q)
    (topic_list : list string) (start_year end_year : Z)
    (include_citations : bool) (min_delay max_delay : Z) (w : World) :
  min_delay <= max_delay ->
  (forall i, (0 <= rnd i)%Q /\ (rnd i < 1)%Q) ->
  exists outcome delta w',
    api_search http rnd topic_list start_year end_year include_citations
      min_delay max_delay w = Some (outcome, w')
    /\ trace w' = (trace w ++ delta)%list
    /\ (inject_Z (Z.of_nat (length (results_of outcome))) * inject_Z min_delay
        <= time_asleep delta)%Q
    /\ (time_asleep delta
        <= inject_Z (Z.of_nat (length (results_of outcome)))
           * (inject_Z max_delay + 42))%Q.
Proof.
  intros Hdelay Hrnd.
  destruct (api_search_passes http rnd include_citations min_delay max_delay
              (pass_time min_delay max_delay)
              (fun topic year results errors w0 =>
                 sweep_body_time http rnd include_citations min_delay
                   max_delay topic year results errors w0 Hdelay Hrnd)
              topic_list start_year end_year w)
    as (outcome & ds & w' & Hrun & Htr & Hp).
  apply passes_time in Hp as (Hrs & Hlo & Hhi).
  exists outcome, ds, w'. rewrite Hrs.
  split; [exact Hrun | split; [exact Htr | split; assumption]].
Qed.

Lemma sweep_sleeping_time_witness :
  2 <= 5
  /\ (forall i, (0 <= half i)%Q /\ (half i < 1)%Q)
  /\ exists outcome delta w',
       api_search (fun _ => too_many_requests) half ["AI"] 2020 2021 false
         2 5 world0 = Some (outcome, w')
       /\ trace w' = (trace world0 ++ delta)%list
       /\ (inject_Z (Z.of_nat (length (results_of outcome))) * inject_Z 2
           <= time_asleep delta)%Q
       /\ (time_asleep delta
           <= inject_Z (Z.of_nat (length (results_of outcome)))
              * (inject_Z 5 + 42))%Q.
Proof.
  assert (H : 2 <= 5) by lia.
  split; [exact H | split; [exact half_in_unit_interval | ]].
  exact (sweep_sleeping_time (fun _ => too_many_requests) half ["AI"] 2020
           2021 false 2 5 world0 H half_in_unit_interval).
Defined.

Lemma passes_quiet include_citations pairs rs ess ds :
  passes (pass_quiet include_citations) pairs rs ess ds ->
  length (requests_of ds)
  = (length rs
     + if include_citations
       then length (filter (fun r => Publications r >? 0) rs) else 0)%nat
  /\ backoffs_of ds = [].
Proof.
  induction 1 as [ | topic year pairs r es d rs ess ds Hstep Hrest IH].
  - cbn. destruct include_citations; split; reflexivity.
  - destruct IH as [Hreq Hback]. destruct Hstep as (delay & ->).
    rewrite requests_of_app, backoffs_of_app, length_app, Hreq, Hback.
    cbn [filter length].
    destruct include_citations; cbn [andb];
      [destruct (Publications r >? 0) | ]; cbn; split; try reflexivity; lia.
Qed.

(** When no reply is one the executor retries (no rate-limit response and
    no exception whose text contains "429"), a sweep makes no backoff
    sleep and issues exactly one request per pair, plus one citation
    request for each record with a positive count when citations are
    included. *)
Theorem quiet_sweep_requests (http : nat -> GetResult) (rnd : nat -> Q)
    (topic_list : list string) (start_year end_year : Z)
    (include_citations : bool) (min_delay max_delay : Z) (w : World) :
  (forall i, retried (http i) = false) ->
  exists outcome delta w',
    api_search http rnd topic_list start_year end_year include_citations
      min_delay max_delay w = Some (outcome, w')
    /\ trace w' = (trace w ++ delta)%list
    /\ length (requests_of delta)
       = (length (results_of outcome)
          + if include_citations
            then length (filter (fun r => Publications r >? 0)
                                (results_of outcome))
            else 0)%nat
    /\ backoffs_of delta = [].
Proof.
  intros Hquiet.
  destruct (api_search_passes http rnd include_citations min_delay max_delay
              (pass_quiet include_citations)
              (fun topic year results errors w0 =>
                 sweep_body_quiet http rnd include_citations min_delay
                   max_delay topic year results errors w0 Hquiet)
              topic_list start_year end_year w)
    as (outcome & ds & w' & Hrun & Htr & Hp).
  apply passes_quiet in Hp as [Hreq Hback].
  exists outcome, ds, w'.
  split; [exact Hrun | split; [exact Htr | split; assumption]].
Qed.

Lemma quiet_sweep_requests_witness :
  (forall i, retried (first_then (ok_reply 150) (ok_reply 0) i) = false)
  /\ exists outcome delta w',
       api_search (first_then (ok_reply 150) (ok_reply 0)) half ["AI"] 2020
         2021 false 2 5 world0 = Some (outcome, w')
       /\ trace w' = (trace world0 ++ delta)%list
       /\ length (requests_of delta)
          = (length (results_of outcome) + 0)%nat
       /\ backoffs_of delta = [].
Proof.
  assert (H : forall i, retried (first_then (ok_reply 150) (ok_reply 0) i) = false)
    by (intros [ | i]; reflexivity).
  split; [exact H | ].
  exact (quiet_sweep_requests (first_then (ok_reply 150) (ok_reply 0)) half
           ["AI"] 2020 2021 false 2 5 world0 H).
Defined.

(** ** build_query *)

Lemma string_length_append (s t : string) :
  String.length (s ++ t) = (String.length s + String.length t)%nat.
Proof. induction s as [ | c s IH]; cbn; [reflexivity | now rewrite IH]. Qed.

Lemma prefix_append (s t : string) : prefix s (s ++ t) = true.
Proof.
  induction s as [ | c s IH]; cbn; [now destruct t | ].
  destruct (ascii_dec c c); [exact IH | congruence].
Qed.

Lemma str_in_prefix (sub s : string) : prefix sub s = true -> str_in sub s = true.
Proof. intros H. destruct s; cbn in *; now rewrite H. Qed.

Lemma str_in_append_l (sub a s : string) :
  str_in sub s = true -> str_in sub (a ++ s) = true.
Proof.
  intros H. induction a as [ | c a IH]; cbn; [exact H | ].
  rewrite IH. apply orb_true_r.
Qed.

Lemma str_in_middle (sub a b : string) : str_in sub (a ++ sub ++ b) = true.
Proof. apply str_in_append_l, str_in_prefix, prefix_append. Qed.

Lemma string_append_assoc (a b c : string) : (a ++ b) ++ c = a ++ b ++ c.
Proof. induction a as [ | x a IH]; cbn; [reflexivity | now rewrite IH]. Qed.

Lemma append_empty_r (s : string) : s ++ "" = s.
Proof. induction s as [ | c s IH]; cbn; [reflexivity | now rewrite IH]. Qed.

Lemma str_in_self (s : string) : str_in s s = true.
Proof.
  apply str_in_prefix. rewrite <- (append_empty_r s) at 2. apply prefix_append.
Qed.

Lemma str_in_end (sub a : string) : str_in sub (a ++ sub) = true.
Proof. apply str_in_append_l, str_in_self. Qed.

(** [build_query] returns the bare topic exactly when no search field is
    selected. *)
Theorem build_query_bare_topic (topic : string)
    (search_title search_abstract search_keywords : bool) :
  build_query topic search_title search_abstract search_keywords = topic
  <-> search_title = false /\ search_abstract = false
      /\ search_keywords = false.
Proof.
  split.
  - intros H. apply (f_equal String.length) in H.
    destruct search_title, search_abstract, search_keywords;
      try (repeat split; reflexivity);
      exfalso; unfold build_query, query_parts, field_term in H;
      cbn [app join] in H;
      repeat (rewrite string_length_append in H; cbn [String.length] in H);
      lia.
  - intros (-> & -> & ->). reflexivity.
Qed.

(** Every query [build_query] returns contains the topic, and the term
    [field:topic] of each selected field. *)
Theorem build_query_mentions (topic : string)
    (search_title search_abstract search_keywords : bool) :
  let query :=
    build_query topic search_title search_abstract search_keywords in
  str_in topic query = true
  /\ (search_title = true -> str_in (field_term "title" topic) query = true)
  /\ (search_abstract = true ->
      str_in (field_term "abstract" topic) query = true)
  /\ (search_keywords = true ->
      str_in (field_term "keywords" topic) query = true).
Proof.
  assert (Hlast : forall field, str_in topic (field_term field topic) = true).
  { intros field. unfold field_term. apply str_in_append_l, str_in_end. }
  assert (Hterm : forall field rest,
             str_in topic (field_term field topic ++ rest) = true).
  { intros field rest. unfold field_term.
    rewrite string_append_assoc. apply str_in_append_l.
    rewrite string_append_assoc. apply (str_in_middle topic ":" rest). }
  assert (Hfirst : forall t rest, str_in t (t ++ rest) = true).
  { intros t rest. apply str_in_prefix, prefix_append. }
  cbv zeta.
  destruct search_title, search_abstract, search_keywords;
    unfold build_query, query_parts; cbn [app join];
    repeat split; intros; try discriminate;
    auto using str_in_self, str_in_append_l, str_in_middle, str_in_end.
Qed.

Lemma build_query_mentions_witness :
  str_in "ml" (build_query "ml" true false true) = true
  /\ (true = true ->
      str_in (field_term "title" "ml") (build_query "ml" true false true)
      = true)
  /\ (false = true ->
      str_in (field_term "abstract" "ml") (build_query "ml" true false true)
      = true)
  /\ (true = true ->
      str_in (field_term "keywords" "ml") (build_query "ml" true false true)
      = true).
Proof. exact (build_query_mentions "ml" true false true). Defined.

(** ** The topics of the form *)

Lemma lstrip_chars (s : string) (c : ascii) :
  In c (list_ascii_of_string (lstrip s)) -> In c (list_ascii_of_string s).
Proof.
  induction s as [ | d s IH]; cbn; [tauto | ].
  destruct (isspace d); cbn; auto.
Qed.

Lemma rstrip_chars (s : string) (c : ascii) :
  In c (list_ascii_of_string (rstrip s)) -> In c (list_ascii_of_string s).
Proof.
  induction s as [ | d s IH]; cbn; [tauto | ].
  destruct (rstrip s) as [ | e r].
  - destruct (isspace d); cbn; tauto.
  - cbn in *. intros [H | H]; auto.
Qed.

Lemma strip_chars (s : string) (c : ascii) :
  In c (list_ascii_of_string (strip s)) -> In c (list_ascii_of_string s).
Proof. intros H. now apply lstrip_chars, rstrip_chars. Qed.

Lemma lstrip_head (s : string) :
  lstrip s = "" \/ exists c r, lstrip s = String c r /\ isspace c = false.
Proof.
  induction s as [ | d s IH]; cbn; [now left | ].
  destruct (isspace d) eqn:Hd; [exact IH | right; eauto].
Qed.

Lemma rstrip_head (c : ascii) (r : string) :
  isspace c = false -> exists r', rstrip (String c r) = String c r'.
Proof.
  intros Hc. cbn. destruct (rstrip r); [rewrite Hc | ]; eauto.
Qed.

Lemma rstrip_idempotent (s : string) : rstrip (rstrip s) = rstrip s.
Proof.
  induction s as [ | c s IH]; [reflexivity | ].
  cbn [rstrip]. destruct (rstrip s) as [ | d r] eqn:Hr.
  - destruct (isspace c) eqn:Hc; cbn; [reflexivity | now rewrite Hc].
  - cbn [rstrip] in *. now rewrite IH.
Qed.

Lemma strip_idempotent (s : string) : strip (strip s) = strip s.
Proof.
  unfold strip. destruct (lstrip_head s) as [-> | (c & r & -> & Hc)];
    [reflexivity | ].
  destruct (rstrip_head c r Hc) as [r' Hr']. rewrite Hr'.
  cbn [lstrip]. rewrite Hc, <- Hr'. apply rstrip_idempotent.
Qed.

Lemma lstrip_blank (s : string) :
  Forall (fun c => isspace c = true) (list_ascii_of_string s) ->
  lstrip s = "".
Proof.
  induction s as [ | c s IH]; cbn; [reflexivity | ].
  intros H. inversion H; subst. rewrite H2. auto.
Qed.

Lemma split_chars (sep : ascii) (s : string) :
  Forall (fun piece =>
            forall c, In c (list_ascii_of_string piece) ->
                      In c (list_ascii_of_string s) /\ c <> sep)
         (split sep s).
Proof.
  induction s as [ | d s IH]; cbn.
  - repeat constructor; cbn in *; tauto.
  - destruct (Ascii.eqb_spec d sep) as [-> | Hd].
    + constructor; [cbn; tauto | ].
      eapply Forall_impl; [ | exact IH].
      intros piece Hp c Hc. destruct (Hp c Hc). split; [now right | assumption].
    + destruct (split sep s) as [ | p ps]; inversion IH; subst.
      * repeat constructor; cbn in *; destruct H; subst; tauto.
      * constructor.
        -- intros c [<- | Hc]; [split; [now left | assumption] | ].
           destruct (H1 c Hc). split; [now right | assumption].
        -- eapply Forall_impl; [ | exact H2].
           intros piece Hp c Hc. destruct (Hp c Hc).
           split; [now right | assumption].
Qed.

(** Every topic the form yields is non-empty, is its own [strip()] (no
    white space at either end) and holds no newline. *)
Theorem parse_topics_clean (topics : string) :
  Forall (fun topic =>
            topic <> "" /\ strip topic = topic
            /\ ~ In newline (list_ascii_of_string topic))
         (parse_topics topics).
Proof.
  unfold parse_topics. apply Forall_forall. intros topic Hin.
  apply in_map_iff in Hin as (line & <- & Hline).
  apply filter_In in Hline as [Hline Hkeep].
  split; [ | split].
  - intros H. rewrite H in Hkeep. discriminate.
  - apply strip_idempotent.
  - intros Hnl. apply strip_chars in Hnl.
    pose proof (split_chars newline topics) as Hall.
    rewrite Forall_forall in Hall. destruct (Hall line Hline newline Hnl).
    congruence.
Qed.

(** A topics box that holds only white space is not empty, so the handler
    runs; it yields no topic, and the sweep returns an empty table and no
    errors without a request or a sleep. *)
Theorem blank_topics_empty_sweep (http : nat -> GetResult) (rnd : nat -> Q)
    (topics : string) (start_year end_year : Z) (include_citations : bool)
    (min_delay max_delay : Z) (w : World) :
  topics <> "" ->
  Forall (fun c => isspace c = true) (list_ascii_of_string topics) ->
  start_year <= end_year ->
  parse_topics topics = []
  /\ search_tab http rnd true topics start_year end_year include_citations
       min_delay max_delay w
     = Some (Some (Swept [] []), w).
Proof.
  intros Hne Hblank Hle.
  assert (Hparse : parse_topics topics = []).
  { unfold parse_topics.
    assert (Hnone : forall lines,
               Forall (fun line =>
                         forall c, In c (list_ascii_of_string line) ->
                                   In c (list_ascii_of_string topics)
                                   /\ c <> newline) lines ->
               filter (fun topic => negb (String.eqb (strip topic) "")) lines
               = []).
    { induction 1 as [ | line lines Hline Hrest IH]; [reflexivity | ].
      cbn [filter]. unfold strip at 1. rewrite lstrip_blank; [exact IH | ].
      apply Forall_forall. intros c Hc. rewrite Forall_forall in Hblank.
      apply Hblank. now apply Hline. }
    now rewrite (Hnone _ (split_chars newline topics)). }
  split; [exact Hparse | ].
  unfold search_tab. rewrite Hparse.
  replace (String.eqb topics "") with false
    by (symmetry; now apply String.eqb_neq).
  cbn [andb negb]. unfold bind.
  rewrite (api_search_swept http rnd [] start_year end_year include_citations
             min_delay max_delay w [] [] w Hle eq_refl).
  reflexivity.
Qed.

Lemma blank_topics_empty_sweep_witness :
  " " <> ""
  /\ Forall (fun c => isspace c = true) (list_ascii_of_string " ")
  /\ 2020 <= 2021
  /\ parse_topics " " = []
  /\ search_tab (fun _ => ok_reply 150) half true " " 2020 2021 true 2 5 world0
     = Some (Some (Swept [] []), world0).
Proof.
  assert (H1 : " " <> "") by discriminate.
  assert (H2 : Forall (fun c => isspace c = true) (list_ascii_of_string " "))
    by (repeat constructor).
  assert (H3 : 2020 <= 2021) by lia.
  split; [exact H1 | split; [exact H2 | split; [exact H3 | ]]].
  exact (blank_topics_empty_sweep (fun _ => ok_reply 150) half " " 2020 2021
           true 2 5 world0 H1 H2 H3).
Defined.

(** ** create_plot and display_visualizations *)

Lemma unique_length (cells : list Cell) :
  (length (unique cells) <= length cells)%nat.
Proof.
  induction cells as [ | c cells IH]; cbn [unique length]; [lia | ].
  pose proof (filter_length_le (fun d => negb (cell_eqb c d)) (unique cells)).
  lia.
Qed.

Lemma create_plot_on_columns (df : DataFrame)
    (plot_type x y color title : string) (labels : list (string * string))
    (kind : ChartKind) (markers : bool) (barmode : option string) :
  chart_of plot_type = Some (kind, markers, barmode) ->
  In x (columns df) -> In y (columns df) -> In color (columns df) ->
  exists cells dtick,
    column df x = Some cells
    /\ create_plot df plot_type x y color title labels
       = Returns (mkFigure kind x y color title labels markers barmode
                    (Some dtick))
    /\ dtick = Z.max 1 (Z.of_nat (length (unique cells)) / 10)
    /\ 1 <= dtick
    /\ ((length cells < 20)%nat -> dtick = 1).
Proof.
  intros Hkind Hx Hy Hc.
  destruct (column_of_columns df x Hx) as [cells Hcol].
  exists cells, (Z.max 1 (Z.of_nat (length (unique cells)) / 10)).
  split; [exact Hcol | split; [ | split; [reflexivity | split; [lia | ]]]].
  - unfold create_plot, create_plot_fig, chart_of in *.
    destruct (String.eqb plot_type "Line Plot");
      [ | destruct (String.eqb plot_type "Bar Plot");
          [ | destruct (String.eqb plot_type "Area Plot"); [ | discriminate]]];
      inversion Hkind; subst;
      unfold px_line, px_bar, px_area, px_chart;
      rewrite px_check_columns by assumption; rewrite Hcol; reflexivity.
  - intros Hlen. pose proof (unique_length cells) as Hu.
    assert (Z.of_nat (length (unique cells)) / 10 <= 1).
    { apply Z.lt_succ_r. apply Z.div_lt_upper_bound; lia. }
    lia.
Qed.

(** On a frame that has the columns named by [x], [y] and [color], a
    listed plot type gives the figure of its kind (markers only on the
    line chart, grouped bars only on the bar chart) with the arguments
    passed through, and a tick spacing of one tenth of the number of
    distinct [x] values, rounded down and at least 1: it is 1 for fewer
    than 20 rows. *)
Theorem create_plot_figure (df : DataFrame)
    (plot_type x y color title : string) (labels : list (string * string))
    (kind : ChartKind) (markers : bool) (barmode : option string) :
  chart_of plot_type = Some (kind, markers, barmode) ->
  In x (columns df) -> In y (columns df) -> In color (columns df) ->
  exists cells dtick,
    column df x = Some cells
    /\ create_plot df plot_type x y color title labels
       = Returns (mkFigure kind x y color title labels markers barmode
                    (Some dtick))
    /\ dtick = Z.max 1 (Z.of_nat (length (unique cells)) / 10)
    /\ 1 <= dtick
    /\ ((length cells < 20)%nat -> dtick = 1).
Proof.
  intros Hkind Hx Hy Hc.
  exact (create_plot_on_columns df plot_type x y color title labels kind
           markers barmode Hkind Hx Hy Hc).
Qed.

Lemma create_plot_figure_witness :
  chart_of "Bar Plot" = Some (BarChart, false, Some "group")
  /\ In "Year" (columns sample_frame)
  /\ In "Publications" (columns sample_frame)
  /\ In "Topic" (columns sample_frame)
  /\ exists cells dtick,
       column sample_frame "Year" = Some cells
       /\ create_plot sample_frame "Bar Plot" "Year" "Publications" "Topic"
            "Publication Trends Over Time" []
          = Returns (mkFigure BarChart "Year" "Publications" "Topic"
                       "Publication Trends Over Time" [] false (Some "group")
                       (Some dtick))
       /\ dtick = Z.max 1 (Z.of_nat (length (unique cells)) / 10)
       /\ 1 <= dtick
       /\ ((length cells < 20)%nat -> dtick = 1).
Proof.
  assert (Hx : In "Year" (columns sample_frame)) by (simpl; tauto).
  assert (Hy : In "Publications" (columns sample_frame)) by (simpl; tauto).
  assert (Hc : In "Topic" (columns sample_frame)) by (simpl; tauto).
  split; [reflexivity | split; [exact Hx | split; [exact Hy | split; [exact Hc | ]]]].
  exact (create_plot_figure sample_frame "Bar Plot" "Year" "Publications"
           "Topic" "Publication Trends Over Time" [] BarChart false
           (Some "group") eq_refl Hx Hy Hc).
Defined.

Lemma chart_of_plot_types (plot_type : string) :
  In plot_type plot_types ->
  exists kind markers barmode,
    chart_of plot_type = Some (kind, markers, barmode).
Proof.
  intros [<- | [<- | [<- | []]]]; do 3 eexists; reflexivity.
Qed.

Lemma create_plot_returns (df : DataFrame)
    (plot_type x y color title : string) (labels : list (string * string)) :
  In plot_type plot_types ->
  In x (columns df) -> In y (columns df) -> In color (columns df) ->
  exists fig, create_plot df plot_type x y color title labels = Returns fig.
Proof.
  intros Ht Hx Hy Hc.
  destruct (chart_of_plot_types plot_type Ht) as (kind & markers & barmode & Hk).
  destruct (create_plot_on_columns df plot_type x y color title labels kind
              markers barmode Hk Hx Hy Hc) as (cells & dtick & _ & Hfig & _).
  eauto.
Qed.

Lemma display_visualizations_on_required (df : DataFrame)
    (selected_plot_type citation_plot_type : string) :
  has_required df ->
  In selected_plot_type plot_types ->
  In citation_plot_type plot_types ->
  exists charts,
    display_visualizations df selected_plot_type citation_plot_type
    = Returns charts
    /\ length charts
       = if existsb (String.eqb "Average Citations") (columns df)
         then 2%nat else 1%nat.
Proof.
  intros Hreq Hsel Hcit.
  assert (Ht : In "Topic" (columns df)) by (apply Hreq; simpl; tauto).
  assert (Hy : In "Year" (columns df)) by (apply Hreq; simpl; tauto).
  assert (Hp : In "Publications" (columns df)) by (apply Hreq; simpl; tauto).
  unfold display_visualizations.
  destruct (create_plot_returns df selected_plot_type "Year" "Publications"
              "Topic" "Publication Trends Over Time"
              [("Publications", "Number of Publications"); ("Year", "Year")]
              Hsel Hy Hp Ht) as [pub_fig ->].
  destruct (existsb (String.eqb "Average Citations") (columns df)) eqn:Hav.
  - apply existsb_exists in Hav as (name & Hin & Heq).
    apply String.eqb_eq in Heq. subst name.
    destruct (create_plot_returns df citation_plot_type "Year"
                "Average Citations" "Topic"
                "Average Citations Per Paper Over Time"
                [("Average Citations", "Average Citations"); ("Year", "Year")]
                Hcit Hy Hin Ht) as [citation_fig ->].
    eauto.
  - eauto.
Qed.

(** On a frame with the columns [Topic], [Year] and [Publications], and for
    radio selections among the three plot types, [display_visualizations]
    raises nothing: it plots the publication chart, and the citation chart
    as well exactly when the frame has the column ["Average Citations"]. *)
Theorem display_visualizations_charts (df : DataFrame)
    (selected_plot_type citation_plot_type : string) :
  has_required df ->
  In selected_plot_type plot_types ->
  In citation_plot_type plot_types ->
  exists charts,
    display_visualizations df selected_plot_type citation_plot_type
    = Returns charts
    /\ length charts
       = if existsb (String.eqb "Average Citations") (columns df)
         then 2%nat else 1%nat.
Proof.
  intros Hreq Hsel Hcit.
  exact (display_visualizations_on_required df selected_plot_type
           citation_plot_type Hreq Hsel Hcit).
Qed.

Lemma sample_frame_required : has_required sample_frame.
Proof. intros col H. simpl in *. tauto. Defined.

Lemma display_visualizations_charts_witness :
  has_required sample_frame
  /\ In "Line Plot" plot_types
  /\ In "Area Plot" plot_types
  /\ exists charts,
       display_visualizations sample_frame "Line Plot" "Area Plot"
       = Returns charts
       /\ length charts
          = if existsb (String.eqb "Average Citations") (columns sample_frame)
            then 2%nat else 1%nat.
Proof.
  assert (H1 : In "Line Plot" plot_types) by (simpl; tauto).
  assert (H2 : In "Area Plot" plot_types) by (simpl; tauto).
  split; [exact sample_frame_required | split; [exact H1 | split; [exact H2 | ]]].
  exact (display_visualizations_charts sample_frame "Line Plot" "Area Plot"
           sample_frame_required H1 H2).
Defined.

(** ** The upload tab *)

Lemma accepts_required (df : DataFrame) : accepts df = true <-> has_required df.
Proof.
  unfold accepts, has_required. rewrite forallb_forall. split.
  - intros H col Hcol. apply H in Hcol. apply existsb_exists in Hcol
      as (name & Hin & Heq). apply String.eqb_eq in Heq. now subst.
  - intros H col Hcol. now apply existsb_eqb_In, H.
Qed.

Lemma set_column_columns (df : DataFrame) (name : string) (cells : list Cell) :
  In name (columns df) -> columns (set_column df name cells) = columns df.
Proof.
  unfold columns.
  induction df as [ | [n old] df IH]; cbn; [tauto | ].
  intros [-> | Hin].
  - now rewrite String.eqb_refl.
  - destruct (String.eqb_spec n name) as [-> | Hn]; [reflexivity | ].
    cbn. now rewrite IH.
Qed.

Section UploadProofs.

Variable is_int64 : list Cell -> bool.
Variable astype_int : list Cell -> option (list Cell).

Lemma upload_preview_ok (uploaded_file : Upload) (session : Session) :
  session_ok session ->
  session_ok (snd (upload_preview uploaded_file session)).
Proof.
  intros Hok.
  destruct uploaded_file as [ | e | df]; cbn [upload_preview snd];
    try assumption.
  fold (accepts df).
  destruct (accepts df) eqn:Ha; cbn [negb snd session_ok]; [ | assumption].
  now apply accepts_required.
Qed.

Lemma upload_display_ok (uploaded_file : Upload) (session : Session)
    (selected citation_selected : string) :
  session_ok session ->
  In selected plot_types -> In citation_selected plot_types ->
  match upload_display is_int64 astype_int uploaded_file session selected
          citation_selected with
  | None => True
  | Some (_, shown, session') => shown_ok (Some shown) /\ session_ok session'
  end.
Proof.
  intros Hok Hsel Hcit. unfold upload_display.
  destruct session as [df | ]; [ | exact I].
  cbn in Hok.
  assert (Hyear : In "Year" (columns df)) by (apply Hok; simpl; tauto).
  destruct (column_of_columns df "Year" Hyear) as [years Hcol].
  assert (Hshow : forall df', has_required df' ->
            shown_ok (Some (display_visualizations df' selected citation_selected))
            /\ session_ok (Some df')).
  { intros df' Hreq.
    destruct (display_visualizations_on_required df' selected citation_selected
                Hreq Hsel Hcit) as (charts & -> & _).
    split; [exact I | exact Hreq]. }
  assert (Hconv : forall converted,
            has_required (set_column df "Year" converted)).
  { intros converted col Hin. rewrite set_column_columns by assumption.
    now apply Hok. }
  destruct uploaded_file as [ | e | df_new]; [exact I | | ];
    rewrite Hcol;
    (destruct (is_int64 years); cbn [negb];
     [ | destruct (astype_int years) as [converted | ]]); auto.
Qed.

Lemma upload_run_ok (uploaded_file : Upload) (selected citation_selected : string)
    (session : Session) :
  session_ok session ->
  In selected plot_types -> In citation_selected plot_types ->
  shown_ok (snd (fst (upload_run is_int64 astype_int uploaded_file selected
                        citation_selected session)))
  /\ session_ok (snd (upload_run is_int64 astype_int uploaded_file selected
                        citation_selected session)).
Proof.
  intros Hok Hsel Hcit. unfold upload_run.
  pose proof (upload_preview_ok uploaded_file session Hok) as Hpre.
  destruct (upload_preview uploaded_file session) as [notices session1].
  cbn [snd] in Hpre.
  pose proof (upload_display_ok uploaded_file session1 selected
                citation_selected Hpre Hsel Hcit) as Hdisp.
  destruct (upload_display is_int64 astype_int uploaded_file session1 selected
              citation_selected) as [[[more shown] session2] | ]; cbn.
  - exact Hdisp.
  - split; [exact I | exact Hpre].
Qed.

Lemma upload_runs_ok (inputs : list (Upload * string * string)) :
  Forall (fun input => In (snd (fst input)) plot_types
                       /\ In (snd input) plot_types) inputs ->
  forall session,
    session_ok session ->
    Forall shown_ok (fst (upload_runs is_int64 astype_int inputs session))
    /\ session_ok (snd (upload_runs is_int64 astype_int inputs session)).
Proof.
  induction 1 as [ | [[file selected] citation_selected] inputs [Hsel Hcit] Hrest IH];
    intros session Hok.
  - cbn. split; [constructor | exact Hok].
  - cbn [upload_runs]. cbn [fst snd] in Hsel, Hcit.
    pose proof (upload_run_ok file selected citation_selected session Hok
                  Hsel Hcit) as [Hshown Hnext].
    destruct (upload_run is_int64 astype_int file selected citation_selected
                session) as [[notices shown] session1].
    cbn [fst snd] in Hshown, Hnext.
    destruct (IH session1 Hnext) as [Hall Hfinal].
    destruct (upload_runs is_int64 astype_int inputs session1) as [rest final].
    cbn [fst snd] in *. split; [now constructor | exact Hfinal].
Qed.

End UploadProofs.

(** From the empty session, whatever files are uploaded run after run
    (unreadable, lacking columns, or valid) and whatever the year
    conversion does, the frame held in the session always has the three
    required columns, and the display block never raises as long as the
    radio selections are plot types. *)
Theorem upload_display_never_raises (is_int64 : list Cell -> bool)
    (astype_int : list Cell -> option (list Cell))
    (inputs : list (Upload * string * string)) :
  Forall (fun input => In (snd (fst input)) plot_types
                       /\ In (snd input) plot_types) inputs ->
  Forall shown_ok (fst (upload_runs is_int64 astype_int inputs None))
  /\ session_ok (snd (upload_runs is_int64 astype_int inputs None)).
Proof.
  intros Hinputs.
  exact (upload_runs_ok is_int64 astype_int inputs Hinputs None I).
Qed.

Lemma upload_display_never_raises_witness :
  Forall (fun input => In (snd (fst input)) plot_types
                       /\ In (snd input) plot_types)
         [(Parsed sample_frame, "Line Plot", "Bar Plot");
          (Parsed [("Topic", [])], "Area Plot", "Line Plot")]
  /\ Forall shown_ok
       (fst (upload_runs (fun _ => false) (fun _ => None)
               [(Parsed sample_frame, "Line Plot", "Bar Plot");
                (Parsed [("Topic", [])], "Area Plot", "Line Plot")] None))
  /\ session_ok
       (snd (upload_runs (fun _ => false) (fun _ => None)
               [(Parsed sample_frame, "Line Plot", "Bar Plot");
                (Parsed [("Topic", [])], "Area Plot", "Line Plot")] None)).
Proof.
  assert (H : Forall (fun input => In (snd (fst input)) plot_types
                                   /\ In (snd input) plot_types)
                [(Parsed sample_frame, "Line Plot", "Bar Plot");
                 (Parsed [("Topic", [])], "Area Plot", "Line Plot")])
    by (repeat constructor; simpl; tauto).
  split; [exact H | ].
  exact (upload_display_never_raises (fun _ => false) (fun _ => None) _ H).
Defined.

(** A file the preview turns down leaves the session as it was, so while
    the session holds an earlier frame the display block still runs and
    plots that earlier frame: the run shows and keeps exactly what
    uploading the earlier frame again would, with an error notice in place
    of the success notice.  With nothing in the session, nothing is
    displayed. *)
Theorem rejected_upload_shows_previous (is_int64 : list Cell -> bool)
    (astype_int : list Cell -> option (list Cell))
    (uploaded_file : Upload) (previous : DataFrame)
    (selected citation_selected : string) :
  rejected uploaded_file ->
  has_required previous ->
  (exists text more shown session',
     upload_run is_int64 astype_int uploaded_file selected citation_selected
       (Some previous)
     = (StError text :: more, Some shown, session')
     /\ upload_run is_int64 astype_int (Parsed previous) selected
          citation_selected (Some previous)
        = (StSuccess "Data uploaded successfully!" :: more, Some shown,
           session'))
  /\ (exists text,
        upload_run is_int64 astype_int uploaded_file selected
          citation_selected None
        = ([StError text], None, None)).
Proof.
  intros Hrej Hreq.
  assert (Hacc : accepts previous = true) by now apply accepts_required.
  assert (Hyear : In "Year" (columns previous)) by (apply Hreq; simpl; tauto).
  destruct (column_of_columns previous "Year" Hyear) as [years Hcol].
  destruct uploaded_file as [ | e | df]; [destruct Hrej | | ];
    unfold rejected in Hrej;
    unfold upload_run, upload_preview, upload_display;
    fold (accepts previous); try fold (accepts df);
    rewrite ?Hacc, ?Hrej; cbn [negb]; rewrite ?Hcol;
    (split; [ | eauto]);
    (destruct (is_int64 years); cbn [negb];
     [ | destruct (astype_int years) as [converted | ]]);
    do 4 eexists; split; reflexivity.
Qed.

Lemma rejected_upload_shows_previous_witness :
  rejected (Parsed [("Topic", [])])
  /\ has_required sample_frame
  /\ exists text more shown session',
       upload_run (fun _ => true) (fun _ => None) (Parsed [("Topic", [])])
         "Line Plot" "Line Plot" (Some sample_frame)
       = (StError text :: more, Some shown, session')
       /\ upload_run (fun _ => true) (fun _ => None) (Parsed sample_frame)
            "Line Plot" "Line Plot" (Some sample_frame)
          = (StSuccess "Data uploaded successfully!" :: more, Some shown,
             session').
Proof.
  assert (H : rejected (Parsed [("Topic", [])])) by reflexivity.
  split; [exact H | split; [exact sample_frame_required | ]].
  exact (proj1 (rejected_upload_shows_previous (fun _ => true) (fun _ => None)
                  (Parsed [("Topic", [])]) sample_frame "Line Plot"
                  "Line Plot" H sample_frame_required)).
Defined.

(** ** The requests of a call, and sweeps in sequence *)

Section ExecutorRequests.

Variable http : nat -> GetResult.
Variable rnd : nat -> Q.
Variable query : string.
Variable year : Z.
Variable include_citations : bool.
Variable max_retries : Z.

Local Abbreviation loop_run :=
  (loop_run http rnd query year include_citations max_retries).

Lemma loop_run_requests rc w out w' :
  loop_run rc w out w' ->
  exists delta attempts sampling,
    trace w' = (trace w ++ delta)%list
    /\ requests_of delta
       = (repeat (primary_params query year) attempts ++ sampling)%list
    /\ (rc <= max_retries -> attempts = S (length (sleeps_of delta)))
    /\ (sampling = []
        \/ (sampling = [citation_params query year]
            /\ include_citations = true
            /\ fst out = AtSuccess /\ 0 < fst (fst (snd out)))).
Proof.
  induction 1 as [rc w Hgt | rc w Hle Hc Hlast | rc w out w' Hle Hc Hmore Hrun IH
                 | rc w e Hle Hc Hwhy | rc w e out w' Hle Hc Hmore Hs Hrun IH
                 | rc w data Hle Hc Hi | rc w data c m Hle Hc Hi Hs].
  - exists [], 0%nat, []. rewrite app_nil_r.
    split; [reflexivity | split; [reflexivity | split; [lia | now left]]].
  - exists [EvGet (primary_params query year)], 1%nat, [].
    split; [reflexivity | split; [reflexivity | split; [reflexivity | now left]]].
  - destruct IH as (delta & attempts & sampling & Htr & Hreq & Hn & Hsamp).
    cbn [after_sleep after_get trace] in Htr.
    eexists (_ :: _ :: delta), (S attempts), sampling.
    split; [rewrite Htr, <- !app_assoc; reflexivity | ].
    cbn [requests_of sleeps_of repeat app length]. rewrite Hreq.
    split; [reflexivity | split; [intros _; now rewrite Hn | exact Hsamp]].
  - exists [EvGet (primary_params query year)], 1%nat, [].
    split; [reflexivity | split; [reflexivity | split; [reflexivity | now left]]].
  - destruct IH as (delta & attempts & sampling & Htr & Hreq & Hn & Hsamp).
    cbn [after_sleep after_get trace] in Htr.
    eexists (_ :: _ :: delta), (S attempts), sampling.
    split; [rewrite Htr, <- !app_assoc; reflexivity | ].
    cbn [requests_of sleeps_of repeat app length]. rewrite Hreq.
    split; [reflexivity | split; [intros _; now rewrite Hn | exact Hsamp]].
  - exists [EvGet (primary_params query year)], 1%nat, [].
    split; [reflexivity | split; [reflexivity | split; [reflexivity | now left]]].
  - exists [EvGet (primary_params query year); EvGet (citation_params query year)],
           1%nat, [citation_params query year].
    split; [cbn [after_get trace]; now rewrite <- app_assoc | ].
    split; [reflexivity | split; [reflexivity | right]].
    apply andb_prop in Hi as [Hic Hpos]. apply Z.gtb_lt in Hpos.
    repeat split; assumption.
Qed.

End ExecutorRequests.

(** The requests of one call, in order: the count request (limit 1, field
    ["year"]) once more than there are backoff sleeps, every time with the
    same query and year; then at most one citation request (limit 100,
    field ["citationCount"]), issued only with citation inclusion on, last,
    and only by a call that returns a positive count. *)
Theorem executor_requests_in_order (http : nat -> GetResult) (rnd : nat -> Q)
    (query : string) (year : Z) (include_citations : bool) (max_retries : Z)
    (w : World) :
  0 <= max_retries ->
  exists site pub cit err delta sampling w',
    search_semantic_scholar_at http rnd query year include_citations
      max_retries w = Some ((site, (pub, cit, err)), w')
    /\ trace w' = (trace w ++ delta)%list
    /\ requests_of delta
       = (repeat (mkParams query (str year) 1 "year")
                 (S (length (sleeps_of delta))) ++ sampling)%list
    /\ (sampling = []
        \/ (sampling = [mkParams query (str year) 100 "citationCount"]
            /\ include_citations = true /\ site = AtSuccess /\ 0 < pub)).
Proof.
  intros Hmr.
  destruct (search_semantic_scholar_at_runs http rnd query year
              include_citations max_retries w)
    as ([site [[pub cit] err]] & w' & Hat & Hrun).
  destruct (loop_run_requests _ _ _ _ _ _ _ _ _ _ Hrun)
    as (delta & attempts & sampling & Htr & Hreq & Hn & Hsamp).
  rewrite (Hn Hmr) in Hreq.
  exists site, pub, cit, err, delta, sampling, w'.
  split; [exact Hat | split; [exact Htr | split; [exact Hreq | exact Hsamp]]].
Qed.

Lemma executor_requests_in_order_witness :
  0 <= 3
  /\ exists site pub cit err delta sampling w',
       search_semantic_scholar_at
         (first_then too_many_requests (ok_reply 150)) half "AI" 2020 true 3
         world0 = Some ((site, (pub, cit, err)), w')
       /\ trace w' = (trace world0 ++ delta)%list
       /\ requests_of delta
          = (repeat (mkParams "AI" (str 2020) 1 "year")
                    (S (length (sleeps_of delta))) ++ sampling)%list
       /\ (sampling = []
           \/ (sampling = [mkParams "AI" (str 2020) 100 "citationCount"]
               /\ true = true /\ site = AtSuccess /\ 0 < pub)).
Proof.
  assert (H : 0 <= 3) by lia.
  split; [exact H | ].
  exact (executor_requests_in_order
           (first_then too_many_requests (ok_reply 150)) half "AI" 2020 true 3
           world0 H).
Defined.
